(** * WeatherNow backend: the temperature retrieval pipeline

    A shallow embedding of

    - [instances/cache/index.ts]   (class [MemoryCache]),
    - [services/weather/weatherTypes.ts],
    - [services/weather/weatherService.ts]
      ([getCurrentTemperature], [refreshTemperature],
      [checkRefreshEligibility], [fetchWeatherData],
      [celsiusToFahrenheit], [formatTimestamp]),
    - [constants/http.ts] and [api/v1/external/weather/controller.ts]
      (the two handlers that call the service),

    followed by the properties of the pipeline.

    Conventions of the embedding.

    - Epoch milliseconds, TTLs and HTTP status codes are JavaScript numbers
      that hold integers far below 2^53, where the arithmetic of doubles is
      exact: they are [Z].  A number that may be [NaN] (the result of
      parsing a date) is [option Z], [None] standing for [NaN].
    - Temperatures are binary64 values: the kernel's [float], with the
      IEEE 754 operations JavaScript uses.
    - Strings are [string]; one character stands for one code unit.
    - The module-level singleton [weatherCache], the system clock and the
      network are the [World] that every function threads through; a
      [throw] is the [Throw] completion of the [Eff] monad.
    - The one suspension of the service is its [await] on [fetch]: the
      network takes the world and gives it back as whatever ran meanwhile
      left it.  The 5 s timer of [fetchWeatherData] is real time and stays
      outside: an aborted request is a rejection of [fetch]. *)

From Stdlib Require Import ZArith Ascii String Floats DecimalString.
From stdpp Require Import gmap strings.

#[local] Set Warnings "-inexact-float".
#[local] Open Scope Z_scope.

(** ** weatherTypes.ts *)

(** [type ConnectionStatus = 'online' | 'offline' | 'stale'] *)
Inductive ConnectionStatus := online | offline | stale.

(** [type TemperatureUnit = 'celsius' | 'fahrenheit'] *)
Inductive TemperatureUnit := celsius | fahrenheit.

(** The string a [TemperatureUnit] is at run time (it is spliced into the
    cache key). *)
Definition unitName (u : TemperatureUnit) : string :=
  match u with celsius => "celsius" | fahrenheit => "fahrenheit" end.

(** [interface TemperatureData] *)
Record TemperatureData := {
  temperature : float;
  unit : string;
  location : string;
  lastUpdate : string;
  connectionStatus : ConnectionStatus;
}.

(** [interface WeatherApiResponse]: [location.{name,region,country}] and
    [current.{temp_c,temp_f,condition.text}]. *)
Record ApiLocation := { name : string; region : string; country : string }.
Record ApiCurrent := { temp_c : float; temp_f : float; condition_text : string }.
Record WeatherApiResponse := {
  resp_location : ApiLocation;
  resp_current : ApiCurrent;
}.

(** ** Values held by the cache, values thrown, values returned *)

(** [Map<string, CacheEntry<any>>]: the service stores a [TemperatureData]
    object under a [weather:] key and a number under a [refresh:] key. *)
Inductive JsVal :=
| VTemperature (d : TemperatureData)
| VNumber (n : Z).

(** [interface CacheEntry<T> { data: T; expiresAt: number }] *)
Record CacheEntry := { data : JsVal; expiresAt : Z }.

(** What the code throws: [new Error(message)] or the object literal
    [{ code, message }]. *)
Inductive Thrown :=
| ErrorObject (message : string)
| CodedObject (code message : string).

(** [error.message] *)
Definition messageOf (e : Thrown) : string :=
  match e with ErrorObject m => m | CodedObject _ m => m end.

(** [error.code]: absent on an [Error]. *)
Definition codeOf (e : Thrown) : option string :=
  match e with ErrorObject _ => None | CodedObject c _ => Some c end.

(** What [getCurrentTemperature] resolves to: [{...cached, connectionStatus}].
    Spreading a [TemperatureData] copies its five fields; spreading a number
    copies nothing, which leaves the one field written after the spread. *)
Inductive Reply :=
| Record_ (d : TemperatureData)
| StatusOnly (s : ConnectionStatus).

(** [{ ...v, connectionStatus: s }]: a new object, the operand is not
    written to. *)
Definition spreadWithStatus (v : JsVal) (s : ConnectionStatus) : Reply :=
  match v with
  | VTemperature d =>
      Record_ {| temperature := temperature d; unit := unit d;
                 location := location d; lastUpdate := lastUpdate d;
                 connectionStatus := s |}
  | VNumber _ => StatusOnly s
  end.

(** JavaScript truthiness of a cached value or [null]: an object is truthy,
    a number is truthy unless it is zero, [null] is falsy.  [truthy o] is
    the value when [if (o)] takes the branch. *)
Definition truthy (o : option JsVal) : option JsVal :=
  match o with
  | Some (VTemperature d) => Some (VTemperature d)
  | Some (VNumber n) => if n =? 0 then None else Some (VNumber n)
  | None => None
  end.

(** ** The world: cache contents, clock, network log *)

Record World := {
  store : gmap string CacheEntry;   (* MemoryCache.cache *)
  clock : nat -> Z;                 (* the readings Date.now() will give, in order *)
  requests : list string;           (* URLs handed to fetch, newest first *)
}.

Definition withStore (s : gmap string CacheEntry) (w : World) : World :=
  {| store := s; clock := clock w; requests := requests w |}.

(** A completion: normal, or abrupt by [throw]. *)
Inductive Completion (A : Type) :=
| Normal (a : A)
| Throw (e : Thrown).
Arguments Normal {A} a.
Arguments Throw {A} e.

Definition Eff (A : Type) : Type := World -> Completion A * World.

Definition ret {A} (a : A) : Eff A := fun w => (Normal a, w).

Definition throw {A} (e : Thrown) : Eff A := fun w => (Throw e, w).

Definition bind {A B} (m : Eff A) (k : A -> Eff B) : Eff B :=
  fun w =>
    match m w with
    | (Normal a, w') => k a w'
    | (Throw e, w') => (Throw e, w')
    end.

(** [try { body } catch (error) { handler }] *)
Definition tryCatch {A} (body : Eff A) (handler : Thrown -> Eff A) : Eff A :=
  fun w =>
    match body w with
    | (Normal a, w') => (Normal a, w')
    | (Throw e, w') => handler e w'
    end.

Declare Scope eff_scope.
Delimit Scope eff_scope with eff.
Notation "x <- m ;; k" := (bind m (fun x => k))
  (at level 100, m at next level, right associativity) : eff_scope.
Notation "m ;;; k" := (bind m (fun _ => k))
  (at level 100, right associativity) : eff_scope.

(** [Date.now()]: takes the next reading of the clock. *)
Definition Date_now : Eff Z :=
  fun w => (Normal (clock w 0%nat),
            {| store := store w; clock := fun i => clock w (S i);
               requests := requests w |}).

(** The world after [n] readings of the clock. *)
Definition afterReadings (n : nat) (w : World) : World :=
  {| store := store w; clock := fun i => clock w (n + i)%nat; requests := requests w |}.

(** ** instances/cache/index.ts *)

Module MemoryCache.

(** [set(key, data, ttl)]: [expiresAt = Date.now() + ttl * 1000], then
    [this.cache.set(key, { data, expiresAt })]. *)
Definition set (key : string) (v : JsVal) (ttl : Z) : Eff () :=
  (now <- Date_now ;;
   fun w =>
     (Normal (),
      withStore (<[key := {| data := v; expiresAt := now + ttl * 1000 |}]> (store w)) w))%eff.

(** [get(key)]: a missing entry gives [null] without reading the clock; an
    entry with [Date.now() > expiresAt] is deleted and gives [null];
    otherwise the entry's data. *)
Definition get (key : string) : Eff (option JsVal) :=
  fun w =>
    match store w !! key with
    | None => (Normal None, w)
    | Some entry =>
        (now <- Date_now ;;
         if now >? expiresAt entry
         then fun w' => (Normal None, withStore (delete key (store w')) w')
         else ret (Some (data entry)))%eff w
    end.

(** [del(key)] *)
Definition del (key : string) : Eff () :=
  fun w => (Normal (), withStore (delete key (store w)) w).

(** [clear()] *)
Definition clear : Eff () :=
  fun w => (Normal (), withStore ∅ w).

(** The body of the [setInterval] callback of [startCleanup]: one reading
    of the clock, then every entry with [now > expiresAt] is deleted. *)
Definition cleanup : Eff () :=
  (now <- Date_now ;;
   fun w =>
     (Normal (),
      withStore (filter (fun kv => ¬ (now > expiresAt kv.2)) (store w)) w))%eff.

End MemoryCache.

(** ** Built-ins the service calls *)

(** [Number.prototype.toString] on an integer. *)
Definition Number_toString (n : Z) : string :=
  NilZero.string_of_int (Z.to_int n).

(** [String.prototype.padStart(targetLength, pad)] for a one-character pad. *)
Definition padStart (targetLength : nat) (pad : ascii) (s : string) : string :=
  String.concat "" (replicate (targetLength - String.length s) (String pad "")) +:+ s.

(** The text [Number.prototype.toFixed(1)] produces. *)
Inductive DecimalText :=
| TextNaN                                  (* "NaN" *)
| TextNumber (x : float)                   (* Number::toString(x): x infinite or |x| >= 1e21 *)
| TextFixed (negative : bool) (tenths : Z). (* ["-"] digits of (tenths / 10) "." digit (tenths mod 10) *)

(** The integer [n] for which [n / 10 - m * 2^e] is as close to zero as
    possible, the larger one when there are two (ECMA-262, step 10.a of
    Number.prototype.toFixed, with f = 1). *)
Definition nearestTenths (m : positive) (e : Z) : Z :=
  if 0 <=? e then 10 * Z.pos m * 2 ^ e
  else (20 * Z.pos m + 2 ^ (- e)) / (2 * 2 ^ (- e)).

(** [x.toFixed(1)]: the sign is written when [x < 0], and the digits are
    those of the exact value of the double. *)
Definition toFixed1 (x : float) : DecimalText :=
  match Prim2SF x with
  | S754_nan => TextNaN
  | S754_infinity _ => TextNumber x
  | S754_zero _ => TextFixed false 0
  | S754_finite s m e =>
      if (if 0 <=? e then 10 ^ 21 <=? Z.pos m * 2 ^ e
          else 10 ^ 21 * 2 ^ (- e) <=? Z.pos m)
      then TextNumber x
      else TextFixed s (nearestTenths m e)
  end.

(** [parseFloat] on such a text: the double nearest to the decimal.  The
    tenths are below 2^53 for every temperature that passes the range
    check, so their conversion is exact and the division rounds once. *)
Definition parseFloat (t : DecimalText) : float :=
  match t with
  | TextNaN => nan
  | TextNumber x => x
  | TextFixed negative tenths =>
      let q := (SF2Prim (binary_normalize prec emax tenths 0 false) / 10)%float in
      if negative then (- q)%float else q
  end.

(** [encodeURIComponent]: every byte outside [A-Z a-z 0-9 - _ . ! ~ * ' ( )]
    becomes [%XX]. *)
Definition hexDigit (n : N) : ascii :=
  ascii_of_N (if (n <? 10)%N then 48 + n else 55 + n).

Definition unreserved (c : ascii) : bool :=
  let n := N_of_ascii c in
  ((65 <=? n) && (n <=? 90) || (97 <=? n) && (n <=? 122) || (48 <=? n) && (n <=? 57)
   || (n =? 45) || (n =? 95) || (n =? 46) || (n =? 33) || (n =? 126) || (n =? 42)
   || (n =? 39) || (n =? 40) || (n =? 41))%N.

Fixpoint encodeURIComponent (s : string) : string :=
  match s with
  | EmptyString => EmptyString
  | String c rest =>
      if unreserved c then String c (encodeURIComponent rest)
      else String "%" (String (hexDigit (N_of_ascii c / 16))
                         (String (hexDigit (N_of_ascii c mod 16))
                            (encodeURIComponent rest)))
  end.

(** ** services/weather/weatherService.ts *)

(** [config.cache.*] and [config.weather.*]: the module [@/config] is read,
    never written, by the service. *)
Record Config := {
  cache_ttl : Z;
  cache_checkPeriod : Z;
  weather_apiUrl : string;
  weather_apiKey : string;
}.

(** What [await fetch(url, ...)] resolves to: [response.ok],
    [response.status], and the completion of [await response.json()]. *)
Record Response := {
  ok : bool;
  status : Z;
  json : Completion WeatherApiResponse;
}.

(** [function celsiusToFahrenheit(celsius) { return (celsius * 9) / 5 + 32; }] *)
Definition celsiusToFahrenheit (celsius : float) : float :=
  ((celsius * 9) / 5 + 32)%float.

(** [temperatureCelsius < -90 || temperatureCelsius > 60], the condition of
    the range check. *)
Definition outsidePlausibleRange (temperatureCelsius : float) : bool :=
  ((temperatureCelsius <? -90) || (60 <? temperatureCelsius))%float.

(** [unit === 'fahrenheit' ? celsiusToFahrenheit(temperatureCelsius) : temperatureCelsius] *)
Definition toRequestedUnit (unit : TemperatureUnit) (temperatureCelsius : float) : float :=
  match unit with
  | fahrenheit => celsiusToFahrenheit temperatureCelsius
  | celsius => temperatureCelsius
  end.

(** [unit === 'fahrenheit' ? '°F' : '°C'] *)
Definition unitSymbol (unit : TemperatureUnit) : string :=
  match unit with fahrenheit => "°F" | celsius => "°C" end.

(** The cache keys. *)
Definition weatherKey (location : string) (unit : TemperatureUnit) : string :=
  "weather:" +:+ location +:+ ":" +:+ unitName unit.

Definition refreshKey (location : string) : string :=
  "refresh:" +:+ location.

Section Service.

Variable config : Config.

(** Local time minus UTC, in milliseconds, at an instant: what
    [getHours] and [getMinutes] add to the epoch value. *)
Variable localOffset : Z -> Z.

(** [new Date(s).getTime()], [None] for [NaN] (an invalid date). *)
Variable Date_parse : string -> option Z.

(** The global [fetch]: while the caller is suspended on it anything else
    may run, so it takes the world and gives the world back.  A rejection
    (network failure, abort by the 5 s timer) is a [Throw]. *)
Variable fetch : string -> Eff Response.

(** [date.getHours()], [date.getMinutes()] *)
Definition getHours (date : Z) : Z := ((date + localOffset date) / 3600000) mod 24.
Definition getMinutes (date : Z) : Z := ((date + localOffset date) / 60000) mod 60.

(** [formatTimestamp(date)] *)
Definition formatTimestamp (date : Z) : string :=
  let hours := padStart 2 "0" (Number_toString (getHours date)) in
  let minutes := padStart 2 "0" (Number_toString (getMinutes date)) in
  "Updated at " +:+ hours +:+ ":" +:+ minutes.

(** [fetchWeatherData(location)] *)
Definition fetchWeatherData (location : string) : Eff WeatherApiResponse :=
  let url := weather_apiUrl config +:+ "/current.json?key=" +:+ weather_apiKey config
             +:+ "&q=" +:+ encodeURIComponent location in
  tryCatch
    (response <- (fun w => fetch url {| store := store w; clock := clock w;
                                         requests := url :: requests w |}) ;;
     if negb (ok response)
     then throw (ErrorObject ("Weather API returned status " +:+ Number_toString (status response)))
     else fun w => (json response, w))%eff
    (fun error =>
       throw (CodedObject "WEATHER_API_ERROR"
                (if String.eqb (messageOf error) "" then "Failed to fetch weather data"
                 else messageOf error))).

(** [cachedData.lastUpdate] read off a cached value: [undefined] on a
    number, and [new Date(undefined)] is an invalid date. *)
Definition lastUpdateTime (v : JsVal) : option Z :=
  match v with
  | VTemperature d => Date_parse (lastUpdate d)
  | VNumber _ => None
  end.

(** [Date.now() - t > 3600000], false when [t] is [NaN]. *)
Definition isStale (now : Z) (t : option Z) : bool :=
  match t with
  | Some t => now - t >? 3600000
  | None => false
  end.

(** The [try] block of [getCurrentTemperature]. *)
Definition fetchAndStore (location : string) (unit : TemperatureUnit) : Eff Reply :=
  (apiResponse <- fetchWeatherData location ;;
   let temperatureCelsius := temp_c (resp_current apiResponse) in
   if outsidePlausibleRange temperatureCelsius
   then throw (ErrorObject "Temperature value outside plausible range")
   else
     let temperature := toRequestedUnit unit temperatureCelsius in
     let formattedTemperature := parseFloat (toFixed1 temperature) in
     date <- Date_now ;;
     let temperatureData :=
       {| temperature := formattedTemperature;
          unit := unitSymbol unit;
          location := name (resp_location apiResponse);
          lastUpdate := formatTimestamp date;
          connectionStatus := online |} in
     MemoryCache.set (weatherKey location unit) (VTemperature temperatureData)
       (cache_ttl config) ;;;
     ret (Record_ temperatureData))%eff.

(** The [catch] block of [getCurrentTemperature]; the caught value is not
    looked at. *)
Definition offlineFallback (location : string) (unit : TemperatureUnit) : Eff Reply :=
  (offlineData <- MemoryCache.get (weatherKey location unit) ;;
   match truthy offlineData with
   | Some v => ret (spreadWithStatus v offline)
   | None =>
       throw (CodedObject "WEATHER_API_ERROR"
                "Unable to retrieve weather data and no cached data available")
   end)%eff.

(** [!location || location.length > 50] *)
Definition invalidLocation (location : string) : bool :=
  String.eqb location "" || (50 <? String.length location)%nat.

(** [getCurrentTemperature(location, unit)] *)
Definition getCurrentTemperature (location : string) (unit : TemperatureUnit) : Eff Reply :=
  if invalidLocation location
  then throw (ErrorObject "Location must be between 1 and 50 characters")
  else
    (cachedData <- MemoryCache.get (weatherKey location unit) ;;
     match truthy cachedData with
     | Some v =>
         now <- Date_now ;;
         ret (spreadWithStatus v
                (if isStale now (lastUpdateTime v) then stale else online))
     | None =>
         tryCatch (fetchAndStore location unit)
                  (fun _ => offlineFallback location unit)
     end)%eff.

(** [refreshTemperature(location, unit)] *)
Definition refreshTemperature (location : string) (unit : TemperatureUnit) : Eff Reply :=
  (MemoryCache.del (weatherKey location unit) ;;;
   now <- Date_now ;;
   MemoryCache.set (refreshKey location) (VNumber now) 30 ;;;
   getCurrentTemperature location unit)%eff.

(** [checkRefreshEligibility(location)]: [!lastRefresh] holds for [null]
    and for the number 0; an object minus a number is [NaN], and
    [NaN >= 30000] is false. *)
Definition checkRefreshEligibility (location : string) : Eff bool :=
  (lastRefresh <- MemoryCache.get (refreshKey location) ;;
   match truthy lastRefresh with
   | None => ret true
   | Some v =>
       now <- Date_now ;;
       ret (match v with
            | VNumber t => now - t >=? 30000
            | VTemperature _ => false
            end)
   end)%eff.

End Service.


(** ** The cache as the specification words it

    [get]: the value if present and [now <= expiresAt]; otherwise the entry is
    removed and the key reported absent.  [set]: the value with
    [expiresAt = now + ttlSeconds * 1000], whatever was there before. *)

Definition specGet (now : Z) (key : string) (s : gmap string CacheEntry)
  : option JsVal * gmap string CacheEntry :=
  match s !! key with
  | Some entry =>
      if now <=? expiresAt entry then (Some (data entry), s) else (None, delete key s)
  | None => (None, delete key s)
  end.

Definition specSet (now : Z) (key : string) (v : JsVal) (ttlSeconds : Z)
  (s : gmap string CacheEntry) : gmap string CacheEntry :=
  <[key := {| data := v; expiresAt := now + ttlSeconds * 1000 |}]> s.

(** The world with every later reading of the clock equal to [t]. *)
Definition atTime (t : Z) (w : World) : World :=
  {| store := store w; clock := fun _ => t; requests := requests w |}.

(** ** Scenarios: configurations, networks and parsers to run the service on *)

Definition demoConfig (ttl : Z) : Config :=
  {| cache_ttl := ttl; cache_checkPeriod := 60;
     weather_apiUrl := "https://api.weatherapi.com/v1"; weather_apiKey := "key" |}.

Definition utc : Z -> Z := fun _ => 0.

Definition lisbon (c : float) : WeatherApiResponse :=
  {| resp_location := {| name := "Lisbon"; region := "Lisboa"; country := "Portugal" |};
     resp_current := {| temp_c := c; temp_f := celsiusToFahrenheit c;
                        condition_text := "Sunny" |} |}.

(** A provider that answers with the reading [c] while nothing else runs. *)
Definition answering (c : float) : string -> Eff Response :=
  fun _ w => (Normal {| ok := true; status := 200; json := Normal (lisbon c) |}, w).

(** A provider that cannot be reached (the timer aborts the request). *)
Definition aborted : string -> Eff Response :=
  fun _ w => (Throw (ErrorObject "This operation was aborted"), w).

(** The same, while a concurrent call stores [entry] under [key]. *)
Definition abortedWhileStored (key : string) (entry : CacheEntry) : string -> Eff Response :=
  fun _ w => (Throw (ErrorObject "This operation was aborted"),
              withStore (<[key := entry]> (store w)) w).

(** The reading [c], while a concurrent call stores [entry] under [key]. *)
Definition answeringWhileStored (c : float) (key : string) (entry : CacheEntry)
  : string -> Eff Response :=
  fun _ w => (Normal {| ok := true; status := 200; json := Normal (lisbon c) |},
              withStore (<[key := entry]> (store w)) w).

Definition emptyWorld (c : nat -> Z) : World :=
  {| store := ∅; clock := c; requests := [] |}.

Definition lisbonRecord : TemperatureData :=
  {| temperature := 21.5; unit := "°C"; location := "Lisbon";
     lastUpdate := "Updated at 22:13"; connectionStatus := online |}.

(** A world whose cache holds [lisbonRecord] for (Lisbon, celsius), expiring
    at [expires], and whose clock reads [now] from here on. *)
Definition cachedWorld (expires now : Z) : World :=
  {| store := {[ weatherKey "Lisbon" celsius :=
                   {| data := VTemperature lisbonRecord; expiresAt := expires |} ]};
     clock := fun _ => now; requests := [] |}.

(** 2023-11-14T22:13:20.000Z *)
Definition nov14 : Z := 1700000000000.

(** An empty cache, the clock standing at [nov14]. *)
Definition quietWorld : World := emptyWorld (fun _ => nov14).

(** [lisbonRecord] as a call at [nov14] would have stored it. *)
Definition lisbonEntry : CacheEntry :=
  {| data := VTemperature lisbonRecord; expiresAt := nov14 + 900 * 1000 |}.

(** A clock that reads [t0] twice and, from then on, one hour and one
    millisecond later. *)
Definition hourLater (t0 : Z) : nat -> Z :=
  fun n => if (n <? 2)%nat then t0 else t0 + 3600001.

(** A [Date.parse] that knows the ECMAScript date-time format in its full
    form, [YYYY-MM-DDTHH:mm:ss.sssZ], and answers [NaN] to anything else. *)
Definition digitValue (c : ascii) : option Z :=
  let n := Z.of_N (N_of_ascii c) in
  if (48 <=? n) && (n <=? 57) then Some (n - 48) else None.

Fixpoint readDigits (k : nat) (acc : Z) (s : string) : option (Z * string) :=
  match k with
  | O => Some (acc, s)
  | S k' =>
      match s with
      | String c rest =>
          match digitValue c with
          | Some d => readDigits k' (acc * 10 + d) rest
          | None => None
          end
      | EmptyString => None
      end
  end.

Definition readChar (c : ascii) (s : string) : option string :=
  match s with
  | String c' rest => if Ascii.eqb c c' then Some rest else None
  | EmptyString => None
  end.

(** Days from 1970-01-01 to the given day of the proleptic Gregorian
    calendar. *)
Definition daysFromCivil (y m d : Z) : Z :=
  let y' := if m <=? 2 then y - 1 else y in
  let era := y' / 400 in
  let yoe := y' - era * 400 in
  let doy := (153 * (if 2 <? m then m - 3 else m + 9) + 2) / 5 + d - 1 in
  let doe := yoe * 365 + yoe / 4 - yoe / 100 + doy in
  era * 146097 + doe - 719468.

Definition isoDateParse (s : string) : option Z :=
  '(y, s) ← readDigits 4 0 s; s ← readChar "-" s;
  '(mo, s) ← readDigits 2 0 s; s ← readChar "-" s;
  '(d, s) ← readDigits 2 0 s; s ← readChar "T" s;
  '(h, s) ← readDigits 2 0 s; s ← readChar ":" s;
  '(mi, s) ← readDigits 2 0 s; s ← readChar ":" s;
  '(sec, s) ← readDigits 2 0 s; s ← readChar "." s;
  '(ms, s) ← readDigits 3 0 s; s ← readChar "Z" s;
  if String.eqb s "" && (1 <=? mo) && (mo <=? 12) && (1 <=? d) && (d <=? 31)
     && (h <=? 23) && (mi <=? 59) && (sec <=? 59)
  then Some ((((daysFromCivil y mo d * 24 + h) * 60 + mi) * 60 + sec) * 1000 + ms)
  else None.

(** ** Histories of calls

    What can run between two suspensions: a call of one of the three exported
    functions, or the cleanup callback of the cache. *)
Inductive Call :=
| CallGet (location : string) (unit : TemperatureUnit)
| CallRefresh (location : string) (unit : TemperatureUnit)
| CallCheck (location : string)
| CallCleanup.

Definition runCall (config : Config) (localOffset : Z -> Z)
  (Date_parse : string -> option Z) (fetch : string -> Eff Response)
  (c : Call) (w : World) : World :=
  match c with
  | CallGet location unit =>
      snd (getCurrentTemperature config localOffset Date_parse fetch location unit w)
  | CallRefresh location unit =>
      snd (refreshTemperature config localOffset Date_parse fetch location unit w)
  | CallCheck location => snd (checkRefreshEligibility location w)
  | CallCleanup => snd (MemoryCache.cleanup w)
  end.

Definition runCalls (config : Config) (localOffset : Z -> Z)
  (Date_parse : string -> option Z) (fetch : string -> Eff Response)
  (calls : list Call) (w : World) : World :=
  foldl (fun w c => runCall config localOffset Date_parse fetch c w) w calls.

(** Every [TemperatureData] in the cache is labelled online. *)
Definition onlineOnly (s : gmap string CacheEntry) : Prop :=
  ∀ key entry d,
    s !! key = Some entry → data entry = VTemperature d → connectionStatus d = online.

(** What runs while a call is suspended on [fetch] keeps [onlineOnly]. *)
Definition keepsOnlineOnly (fetch : string -> Eff Response) : Prop :=
  ∀ url w, onlineOnly (store w) → onlineOnly (store (snd (fetch url w))).

(** A network during whose round trip the calls [others] run to completion,
    themselves served by the network [inner]. *)
Definition whileRunning (config : Config) (localOffset : Z -> Z)
  (Date_parse : string -> option Z) (inner : string -> Eff Response)
  (others : list Call) : string -> Eff Response :=
  fun url w =>
    (fst (inner url w),
     runCalls config localOffset Date_parse inner others (snd (inner url w))).

(** A world whose clock stands at the epoch, the cache empty. *)
Definition epochWorld : World := emptyWorld (fun _ => 0).


(** ** constants/http.ts *)

Module HTTP_STATUS.
Definition OK : Z := 200.
Definition CREATED : Z := 201.
Definition NO_CONTENT : Z := 204.
Definition BAD_REQUEST : Z := 400.
Definition UNAUTHORIZED : Z := 401.
Definition FORBIDDEN : Z := 403.
Definition NOT_FOUND : Z := 404.
Definition CONFLICT : Z := 409.
Definition UNPROCESSABLE_ENTITY : Z := 422.
Definition INTERNAL_SERVER_ERROR : Z := 500.
Definition SERVICE_UNAVAILABLE : Z := 503.
End HTTP_STATUS.

(** ** api/v1/external/weather/controller.ts

    The two handlers the router mounts on [GET /weather/current] and
    [POST /weather/refresh].  Of Express and zod the handlers use only what
    is written out here. *)

(** A property of [req.query] or [req.body] as zod sees it: missing, a
    string, or anything else (an array, a number, [null], ...). *)
Inductive RawValue :=
| Undefined
| Text (s : string)
| NotText.

(** [req.query] / [req.body]: an object with its [location] and [unit]
    properties, or no object at all (a request without a parsed body). *)
Inductive RawInput :=
| NoObject
| Fields (location unit : RawValue).

(** [z.string().min(1).max(50)] *)
Definition zLocation (v : RawValue) : option string :=
  match v with
  | Text s => if ((1 <=? String.length s) && (String.length s <=? 50))%nat
              then Some s else None
  | _ => None
  end.

(** [z.enum(['celsius', 'fahrenheit']).optional().default('celsius')] *)
Definition zUnit (v : RawValue) : option TemperatureUnit :=
  match v with
  | Undefined => Some celsius
  | Text s => if String.eqb s "celsius" then Some celsius
              else if String.eqb s "fahrenheit" then Some fahrenheit
              else None
  | NotText => None
  end.

(** [z.object({ location, unit }).parse(input)], [None] when it throws a
    [ZodError]. *)
Definition schemaParse (input : RawInput) : option (string * TemperatureUnit) :=
  match input with
  | NoObject => None
  | Fields location unit =>
      match zLocation location, zUnit unit with
      | Some location, Some unit => Some (location, unit)
      | _, _ => None
      end
  end.

(** The object handed to [successResponse]: the five properties the current
    handler reads off the service's reply, or the four the refresh handler
    reads, [undefined] when the reply lacks them. *)
Inductive Payload :=
| TemperatureResponse (temperatureData : Reply)
| RefreshResponse (fields : option (float * string * string * string)).

(** The calls [successResponse(data)] and [errorResponse(code, message,
    details)] of [@/utils/response], left as they are written. *)
Inductive ResponseBody (Issues : Type) :=
| successResponse (data : Payload)
| errorResponse (code message : string) (details : option Issues).
Arguments successResponse {Issues} data.
Arguments errorResponse {Issues} code message details.

(** How a handler ends: [res.status(s).json(body)] ([res.json] alone sends
    200), or [next(error)]. *)
Inductive Handled (Issues : Type) :=
| Sent (status : Z) (body : ResponseBody Issues)
| Next (error : Thrown).
Arguments Sent {Issues} status body.
Arguments Next {Issues} error.

Module weatherController.

Section Handlers.

Variable config : Config.
Variable localOffset : Z -> Z.
Variable Date_parse : string -> option Z.
Variable fetch : string -> Eff Response.

(** [error.errors] of the [ZodError] thrown on an input. *)
Variable Issues : Type.
Variable zodIssues : RawInput -> Issues.

(** The branch of both handlers for a [ZodError]. *)
Definition invalidRequest (input : RawInput) : Handled Issues :=
  Sent HTTP_STATUS.BAD_REQUEST
    (errorResponse "VALIDATION_ERROR" "Invalid request parameters" (Some (zodIssues input))).

(** The other branches of the catch block of both handlers:
    [error.code === 'WEATHER_API_ERROR'] or [next(error)]. *)
Definition serviceFailure (error : Thrown) : Handled Issues :=
  match codeOf error with
  | Some code =>
      if String.eqb code "WEATHER_API_ERROR"
      then Sent HTTP_STATUS.SERVICE_UNAVAILABLE
             (errorResponse "SERVICE_UNAVAILABLE" (messageOf error) None)
      else Next error
  | None => Next error
  end.

(** [reply.temperature], ..., [reply.lastUpdate] *)
Definition refreshedFields (temperatureData : Reply)
  : option (float * string * string * string) :=
  match temperatureData with
  | Record_ d => Some (temperature d, unit d, location d, lastUpdate d)
  | StatusOnly _ => None
  end.

(** [getCurrentTemperature(req, res, next)] on [req.query] *)
Definition getCurrentTemperature (query : RawInput) : Eff (Handled Issues) :=
  match schemaParse query with
  | None => ret (invalidRequest query)
  | Some (location, unit) =>
      tryCatch
        (temperatureData <-
           getCurrentTemperature config localOffset Date_parse fetch location unit ;;
         ret (Sent HTTP_STATUS.OK (successResponse (TemperatureResponse temperatureData))))%eff
        (fun error => ret (serviceFailure error))
  end.

(** [refreshTemperature(req, res, next)] on [req.body] *)
Definition refreshTemperature (body : RawInput) : Eff (Handled Issues) :=
  match schemaParse body with
  | None => ret (invalidRequest body)
  | Some (location, unit) =>
      tryCatch
        (canRefresh <- checkRefreshEligibility location ;;
         if negb canRefresh
         then ret (Sent HTTP_STATUS.BAD_REQUEST
                     (errorResponse "RATE_LIMIT_ERROR"
                        "Please wait at least 30 seconds between manual refresh requests"
                        None))
         else
           temperatureData <-
             refreshTemperature config localOffset Date_parse fetch location unit ;;
           ret (Sent HTTP_STATUS.OK
                  (successResponse (RefreshResponse (refreshedFields temperatureData)))))%eff
        (fun error => ret (serviceFailure error))
  end.

End Handlers.

End weatherController.

(** Every entry of the cache satisfies [P], a property of a key and the
    entry under it. *)
Definition allEntries (P : string -> CacheEntry -> Prop) (s : gmap string CacheEntry) : Prop :=
  ∀ key entry, s !! key = Some entry → P key entry.

(** The types the casts [get<TemperatureData>(cacheKey)] and
    [get<number>(refreshKey)] take for granted: a weather key holds a
    [TemperatureData], a refresh key a number. *)
Definition castsHold (key : string) (entry : CacheEntry) : Prop :=
  (∀ location unit, key = weatherKey location unit → ∃ d, data entry = VTemperature d)
  ∧ (∀ location, key = refreshKey location → ∃ n, data entry = VNumber n).

(** What zod reports, cut down to the names of the properties it refused. *)
Definition refusedProperties (input : RawInput) : list string :=
  match input with
  | NoObject => [""]
  | Fields location unit =>
      match zLocation location with Some _ => [] | None => ["location"] end
      ++ match zUnit unit with Some _ => [] | None => ["unit"] end
  end.

(** A world whose cache holds a refresh guard for Lisbon written at [nov14],
    the clock standing ten seconds later. *)
Definition guardedWorld : World :=
  {| store := {[ refreshKey "Lisbon" :=
                   {| data := VNumber nov14; expiresAt := nov14 + 30 * 1000 |} ]};
     clock := fun _ => nov14 + 10000; requests := [] |}.


(** * Properties *)

(** Unfolds the monad so that a run of the service becomes a term over the
    world it started in. *)
Ltac eff :=
  unfold bind, ret, throw, tryCatch, Date_now, withStore, atTime in *; simpl in *.

(** ** The cache *)

Section CacheFacts.

Implicit Types (key : string) (w : World) (v : JsVal).

Lemma gtb_leb (a b : Z) : (a >? b) = negb (a <=? b).
Proof. rewrite Z.gtb_ltb. apply Z.ltb_antisym. Qed.

Lemma get_result key w :
  fst (MemoryCache.get key w) = Normal (fst (specGet (clock w 0%nat) key (store w))).
Proof.
  unfold MemoryCache.get, specGet.
  destruct (store w !! key) as [entry|]; [|reflexivity].
  eff. rewrite gtb_leb. destruct (clock w 0%nat <=? expiresAt entry); reflexivity.
Qed.

Lemma get_store key w :
  store (snd (MemoryCache.get key w)) = snd (specGet (clock w 0%nat) key (store w)).
Proof.
  unfold MemoryCache.get, specGet.
  destruct (store w !! key) as [entry|] eqn:E; simpl.
  - eff. rewrite gtb_leb. destruct (clock w 0%nat <=? expiresAt entry); reflexivity.
  - symmetry. apply delete_id, E.
Qed.

Lemma get_requests key w : requests (snd (MemoryCache.get key w)) = requests w.
Proof.
  unfold MemoryCache.get.
  destruct (store w !! key) as [entry|]; [|reflexivity].
  eff. destruct (clock w 0%nat >? expiresAt entry); reflexivity.
Qed.

(** A lookup touches no other key. *)
Lemma get_frame key k' w :
  k' ≠ key → store (snd (MemoryCache.get key w)) !! k' = store w !! k'.
Proof.
  intros Hne. rewrite get_store. unfold specGet.
  destruct (store w !! key) as [entry|]; simpl;
    [destruct (clock w 0%nat <=? expiresAt entry); simpl|];
    try reflexivity; apply lookup_delete_ne; congruence.
Qed.

(** A lookup that returns a value leaves the cache as it was and returns the
    data of the entry under the key. *)
Lemma get_hit key w v :
  fst (MemoryCache.get key w) = Normal (Some v) →
  store (snd (MemoryCache.get key w)) = store w
  ∧ ∃ entry, store w !! key = Some entry ∧ data entry = v
             ∧ clock w 0%nat <= expiresAt entry.
Proof.
  rewrite get_result, get_store. unfold specGet.
  destruct (store w !! key) as [entry|]; simpl; [|discriminate].
  destruct (clock w 0%nat <=? expiresAt entry) eqn:L; simpl; [|discriminate].
  intros [= <-]. split; [reflexivity|].
  exists entry. repeat split. apply Z.leb_le, L.
Qed.

Lemma set_store key v ttl w :
  store (snd (MemoryCache.set key v ttl w)) = specSet (clock w 0%nat) key v ttl (store w).
Proof. reflexivity. Qed.

End CacheFacts.

(** C7: [get] returns the stored value when the entry is present and
    [now <= expiresAt], and otherwise removes the entry and reports it absent,
    changing nothing else in the cache; [set] stores the value with
    [expiresAt = now + ttl * 1000] over whatever the key held.  An entry set
    with a TTL of 1 s is returned 500 ms later and absent 1500 ms later. *)
Theorem MemoryCache_get_set_spec :
  (∀ key w,
      fst (MemoryCache.get key w) = Normal (fst (specGet (clock w 0%nat) key (store w)))
      ∧ store (snd (MemoryCache.get key w)) = snd (specGet (clock w 0%nat) key (store w))
      ∧ match store w !! key with
        | Some entry =>
            if clock w 0%nat <=? expiresAt entry
            then fst (MemoryCache.get key w) = Normal (Some (data entry))
                 ∧ store (snd (MemoryCache.get key w)) = store w
            else fst (MemoryCache.get key w) = Normal None
                 ∧ store (snd (MemoryCache.get key w)) = delete key (store w)
        | None =>
            fst (MemoryCache.get key w) = Normal None
            ∧ store (snd (MemoryCache.get key w)) = store w
        end
      ∧ ∀ key', key' ≠ key → store (snd (MemoryCache.get key w)) !! key' = store w !! key')
  ∧ (∀ key v ttl w,
        fst (MemoryCache.set key v ttl w) = Normal ()
        ∧ store (snd (MemoryCache.set key v ttl w))
          = specSet (clock w 0%nat) key v ttl (store w)
        ∧ store (snd (MemoryCache.set key v ttl w)) !! key
          = Some {| data := v; expiresAt := clock w 0%nat + ttl * 1000 |}
        ∧ ∀ key', key' ≠ key →
            store (snd (MemoryCache.set key v ttl w)) !! key' = store w !! key')
  ∧ (∀ key v w t,
        let stored := snd (MemoryCache.set key v 1 (atTime t w)) in
        fst (MemoryCache.get key (atTime (t + 500) stored)) = Normal (Some v)
        ∧ fst (MemoryCache.get key (atTime (t + 1500) stored)) = Normal None).
Proof.
  split; [|split].
  - intros key w. split; [apply get_result|]. split; [apply get_store|]. split.
    + rewrite get_result, get_store. unfold specGet.
      destruct (store w !! key) as [entry|] eqn:E; simpl.
      * destruct (clock w 0%nat <=? expiresAt entry); split; reflexivity.
      * split; [reflexivity|]. apply delete_id, E.
    + intros key' Hne. apply get_frame, Hne.
  - intros key v ttl w. split; [reflexivity|]. split; [reflexivity|].
    unfold MemoryCache.set. eff. split.
    + apply lookup_insert_eq.
    + intros key' Hne. apply lookup_insert_ne. congruence.
  - intros key v w t stored. subst stored.
    rewrite !get_result. unfold specGet, MemoryCache.set. eff.
    rewrite !lookup_insert_eq. simpl.
    replace (t + 500 <=? t + 1 * 1000) with true by (symmetry; apply Z.leb_le; lia).
    replace (t + 1500 <=? t + 1 * 1000) with false by (symmetry; apply Z.leb_gt; lia).
    split; reflexivity.
Qed.

(** ** The retrieval pipeline *)

(** A location that is empty or longer than 50 is refused before anything
    is looked up. *)
Lemma getCurrentTemperature_invalid config localOffset Date_parse fetch loc u w :
  invalidLocation loc = true →
  getCurrentTemperature config localOffset Date_parse fetch loc u w
  = (Throw (ErrorObject "Location must be between 1 and 50 characters"), w).
Proof. intros Hinvalid. unfold getCurrentTemperature. rewrite Hinvalid. reflexivity. Qed.

(** The three ways through [getCurrentTemperature] once the location is
    accepted. *)
Lemma run_getCurrentTemperature config localOffset Date_parse fetch loc u w :
  invalidLocation loc = false →
  getCurrentTemperature config localOffset Date_parse fetch loc u w =
    match MemoryCache.get (weatherKey loc u) w with
    | (Normal cachedData, w1) =>
        match truthy cachedData with
        | Some v =>
            (Normal (spreadWithStatus v
                       (if isStale (clock w1 0%nat) (lastUpdateTime Date_parse v)
                        then stale else online)),
             afterReadings 1 w1)
        | None =>
            tryCatch (fetchAndStore config localOffset fetch loc u)
                     (fun _ => offlineFallback loc u) w1
        end
    | (Throw e, w1) => (Throw e, w1)
    end.
Proof.
  intros Hvalid. unfold getCurrentTemperature. rewrite Hvalid. eff.
  destruct (MemoryCache.get (weatherKey loc u) w) as [[cachedData|e] w1];
    [|reflexivity].
  destruct (truthy cachedData); reflexivity.
Qed.

(** The catch block, by what its lookup finds. *)
Lemma run_offlineFallback loc u w :
  offlineFallback loc u w =
    match MemoryCache.get (weatherKey loc u) w with
    | (Normal offlineData, w1) =>
        match truthy offlineData with
        | Some v => (Normal (spreadWithStatus v offline), w1)
        | None =>
            (Throw (CodedObject "WEATHER_API_ERROR"
                      "Unable to retrieve weather data and no cached data available"), w1)
        end
    | (Throw e, w1) => (Throw e, w1)
    end.
Proof.
  unfold offlineFallback. eff.
  destruct (MemoryCache.get (weatherKey loc u) w) as [[offlineData|e] w1];
    [|reflexivity].
  destruct (truthy offlineData); reflexivity.
Qed.

(** The try block, by what the fetch gives and what the range check says. *)
Lemma run_fetchAndStore config localOffset fetch loc u w :
  fetchAndStore config localOffset fetch loc u w =
    match fetchWeatherData config fetch loc w with
    | (Normal apiResponse, w1) =>
        let c := temp_c (resp_current apiResponse) in
        if outsidePlausibleRange c
        then (Throw (ErrorObject "Temperature value outside plausible range"), w1)
        else
          let d := {| temperature := parseFloat (toFixed1 (toRequestedUnit u c));
                      unit := unitSymbol u;
                      location := name (resp_location apiResponse);
                      lastUpdate := formatTimestamp localOffset (clock w1 0%nat);
                      connectionStatus := online |} in
          (Normal (Record_ d),
           withStore (specSet (clock w1 1%nat) (weatherKey loc u) (VTemperature d)
                        (cache_ttl config) (store w1))
                     (afterReadings 2 w1))
    | (Throw e, w1) => (Throw e, w1)
    end.
Proof.
  unfold fetchAndStore. unfold bind at 1.
  destruct (fetchWeatherData config fetch loc w) as [[apiResponse|e] w1];
    [|reflexivity].
  simpl. destruct (outsidePlausibleRange (temp_c (resp_current apiResponse)));
    reflexivity.
Qed.


Section CacheHit.

Variable config : Config.
Variable localOffset : Z -> Z.
Variable Date_parse : string -> option Z.
Variable fetch : string -> Eff Response.

#[local] Abbreviation getCurrentTemperature :=
  (getCurrentTemperature config localOffset Date_parse fetch).

Implicit Types (loc : string) (u : TemperatureUnit) (w : World).

(** C8: on a cache hit the record returned equals the cached one in
    [temperature], [unit], [location] and [lastUpdate]; the cache is left as
    it was, so the cached record is not written to, and no request goes to
    the provider.  The same holds of the offline relabel in the catch block,
    which returns the copy with [connectionStatus = offline]. *)
Theorem cache_hit_copies_record loc u w d
  (Hvalid : invalidLocation loc = false)
  (Hhit : fst (MemoryCache.get (weatherKey loc u) w) = Normal (Some (VTemperature d))) :
  (∃ d', fst (getCurrentTemperature loc u w) = Normal (Record_ d')
         ∧ temperature d' = temperature d ∧ unit d' = unit d
         ∧ location d' = location d ∧ lastUpdate d' = lastUpdate d
         ∧ (connectionStatus d' = online ∨ connectionStatus d' = stale))
  ∧ store (snd (getCurrentTemperature loc u w)) = store w
  ∧ requests (snd (getCurrentTemperature loc u w)) = requests w
  ∧ (∃ d', fst (offlineFallback loc u w) = Normal (Record_ d')
           ∧ temperature d' = temperature d ∧ unit d' = unit d
           ∧ location d' = location d ∧ lastUpdate d' = lastUpdate d
           ∧ connectionStatus d' = offline)
  ∧ store (snd (offlineFallback loc u w)) = store w
  ∧ requests (snd (offlineFallback loc u w)) = requests w.
Proof.
  pose proof (get_hit _ _ _ Hhit) as [Hstore _].
  pose proof (get_requests (weatherKey loc u) w) as Hreq.
  rewrite (run_getCurrentTemperature _ _ _ _ _ _ _ Hvalid), run_offlineFallback.
  destruct (MemoryCache.get (weatherKey loc u) w) as [[cachedData|e] w1];
    simpl in Hhit, Hstore, Hreq; [|discriminate].
  injection Hhit as ->. simpl.
  split; [|split; [|split; [|split; [|split]]]]; try assumption.
  - eexists. split; [reflexivity|]. simpl. do 4 (split; [reflexivity|]).
    destruct (isStale _ _); [right|left]; reflexivity.
  - eexists. split; [reflexivity|]. simpl. repeat split.
Qed.

(** The status a hit is labelled with: the clock is read once more after the
    lookup, and the record is stale when that reading is more than 3600000 ms
    past what [Date.parse] makes of [lastUpdate]. *)
Lemma cache_hit_status loc u w d
  (Hvalid : invalidLocation loc = false)
  (Hhit : fst (MemoryCache.get (weatherKey loc u) w) = Normal (Some (VTemperature d))) :
  fst (getCurrentTemperature loc u w) =
    Normal (spreadWithStatus (VTemperature d)
              (match Date_parse (lastUpdate d) with
               | Some fetched => if clock w 1%nat - fetched >? 3600000 then stale else online
               | None => online
               end)).
Proof.
  rewrite (run_getCurrentTemperature _ _ _ _ _ _ _ Hvalid).
  assert (Hclock : clock (snd (MemoryCache.get (weatherKey loc u) w)) 0%nat
                   = clock w 1%nat).
  { revert Hhit. unfold MemoryCache.get.
    destruct (store w !! weatherKey loc u) as [entry|]; [|discriminate].
    eff. destruct (clock w 0%nat >? expiresAt entry); [discriminate|reflexivity]. }
  destruct (MemoryCache.get (weatherKey loc u) w) as [[cachedData|e] w1];
    simpl in Hhit, Hclock; [|discriminate].
  injection Hhit as ->. simpl. rewrite Hclock.
  destruct (Date_parse (lastUpdate d)) as [fetched|]; simpl; [|reflexivity].
  destruct (clock w 1%nat - fetched >? 3600000); reflexivity.
Qed.

(** When [lastUpdate] is not a date to [Date.parse], the age is [NaN] and the
    hit is labelled online however late it is read. *)
Lemma unparsed_record_served_online loc u w d
  (Hvalid : invalidLocation loc = false)
  (Hhit : fst (MemoryCache.get (weatherKey loc u) w) = Normal (Some (VTemperature d)))
  (Hnan : Date_parse (lastUpdate d) = None) :
  fst (getCurrentTemperature loc u w)
  = Normal (spreadWithStatus (VTemperature d) online).
Proof. rewrite (cache_hit_status _ _ _ _ Hvalid Hhit), Hnan. reflexivity. Qed.

End CacheHit.

(** [formatTimestamp] writes no date: the text starts with a letter. *)
Lemma formatTimestamp_unparsed localOffset date :
  isoDateParse (formatTimestamp localOffset date) = None.
Proof. reflexivity. Qed.

(** C1 (the code departs from it): a record fetched at 22:13:20.000 and kept
    for two hours is read 3600001 ms after its fetch, and the hit is labelled
    online, not stale: what is subtracted from the clock is
    [Date.parse "Updated at 22:13"], which is [NaN]. *)
Theorem stale_record_served_online :
  let config := demoConfig 7200 in
  let fetched := getCurrentTemperature config utc isoDateParse (answering 20)
                   "Lisbon" celsius (emptyWorld (hourLater nov14)) in
  let served := {| temperature := 20; unit := "°C"; location := "Lisbon";
                   lastUpdate := "Updated at 22:13"; connectionStatus := online |} in
  fst fetched = Normal (Record_ served)
  ∧ clock (snd fetched) 1%nat - nov14 = 3600001
  ∧ fst (MemoryCache.get (weatherKey "Lisbon" celsius) (snd fetched))
    = Normal (Some (VTemperature served))
  ∧ fst (getCurrentTemperature config utc isoDateParse aborted
           "Lisbon" celsius (snd fetched)) = Normal (Record_ served).
Proof. vm_compute. repeat split. Qed.


(** The witness of C8: Lisbon is cached until 22:28:20 and looked up at
    22:13:20. *)
Lemma cache_hit_copies_record_witness :
  let w := cachedWorld (nov14 + 900 * 1000) nov14 in
  (∃ d', fst (getCurrentTemperature (demoConfig 900) utc isoDateParse aborted
                "Lisbon" celsius w) = Normal (Record_ d')
         ∧ temperature d' = temperature lisbonRecord
         ∧ unit d' = unit lisbonRecord
         ∧ location d' = location lisbonRecord
         ∧ lastUpdate d' = lastUpdate lisbonRecord
         ∧ (connectionStatus d' = online ∨ connectionStatus d' = stale))
  ∧ store (snd (getCurrentTemperature (demoConfig 900) utc isoDateParse aborted
                  "Lisbon" celsius w)) = store w
  ∧ requests (snd (getCurrentTemperature (demoConfig 900) utc isoDateParse aborted
                     "Lisbon" celsius w)) = requests w
  ∧ (∃ d', fst (offlineFallback "Lisbon" celsius w) = Normal (Record_ d')
           ∧ temperature d' = temperature lisbonRecord
           ∧ unit d' = unit lisbonRecord
           ∧ location d' = location lisbonRecord
           ∧ lastUpdate d' = lastUpdate lisbonRecord
           ∧ connectionStatus d' = offline)
  ∧ store (snd (offlineFallback "Lisbon" celsius w)) = store w
  ∧ requests (snd (offlineFallback "Lisbon" celsius w)) = requests w.
Proof.
  exact (cache_hit_copies_record (demoConfig 900) utc isoDateParse aborted "Lisbon" celsius
           (cachedWorld (nov14 + 900 * 1000) nov14) lisbonRecord eq_refl eq_refl).
Defined.

(** ** A miss: fetch, range check, conversion, store, fallback *)

Section CacheMiss.

Variable config : Config.
Variable localOffset : Z -> Z.
Variable Date_parse : string -> option Z.
Variable fetch : string -> Eff Response.

#[local] Abbreviation getCurrentTemperature :=
  (getCurrentTemperature config localOffset Date_parse fetch).
#[local] Abbreviation fetchAndStore := (fetchAndStore config localOffset fetch).
#[local] Abbreviation fetchWeatherData := (fetchWeatherData config fetch).

Implicit Types (loc : string) (u : TemperatureUnit) (w : World).

(** A miss runs the try block and, if it throws, the catch block, in the
    world the first lookup left. *)
Lemma run_miss loc u w
  (Hvalid : invalidLocation loc = false)
  (Hmiss : fst (MemoryCache.get (weatherKey loc u) w) = Normal None) :
  getCurrentTemperature loc u w =
    tryCatch (fetchAndStore loc u) (fun _ => offlineFallback loc u)
      (snd (MemoryCache.get (weatherKey loc u) w)).
Proof.
  rewrite (run_getCurrentTemperature _ _ _ _ _ _ _ Hvalid).
  destruct (MemoryCache.get (weatherKey loc u) w) as [[cachedData|e] w1];
    simpl in Hmiss; [|discriminate].
  injection Hmiss as ->. reflexivity.
Qed.

(** What the catch block gives, by what its lookup finds. *)
Lemma offlineFallback_result loc u w :
  fst (offlineFallback loc u w) =
    match fst (MemoryCache.get (weatherKey loc u) w) with
    | Normal (Some (VTemperature d)) => Normal (spreadWithStatus (VTemperature d) offline)
    | Normal (Some (VNumber n)) =>
        if n =? 0
        then Throw (CodedObject "WEATHER_API_ERROR"
                      "Unable to retrieve weather data and no cached data available")
        else Normal (StatusOnly offline)
    | Normal None =>
        Throw (CodedObject "WEATHER_API_ERROR"
                 "Unable to retrieve weather data and no cached data available")
    | Throw e => Throw e
    end.
Proof.
  rewrite run_offlineFallback.
  destruct (MemoryCache.get (weatherKey loc u) w) as [[[[d|n]|]|e] w1];
    simpl; try reflexivity.
  destruct (n =? 0); reflexivity.
Qed.

(** The catch block writes nothing: the cache is as its lookup left it. *)
Lemma offlineFallback_world loc u w :
  snd (offlineFallback loc u w)
  = snd (MemoryCache.get (weatherKey loc u) w).
Proof.
  rewrite run_offlineFallback.
  destruct (MemoryCache.get (weatherKey loc u) w) as [[offlineData|e] w1];
    [|reflexivity].
  simpl. destruct (truthy offlineData); reflexivity.
Qed.

(** C3: when the first lookup misses and the fetch fails, whatever the
    failure, the call is decided by a second lookup of the same key: a record
    found there is returned as a copy with [connectionStatus = offline], and
    when nothing is found the call throws [WEATHER_API_ERROR] with the
    message that no cached data is available. *)
Theorem offline_fallback_on_fetch_failure loc u w e w1
  (Hvalid : invalidLocation loc = false)
  (Hmiss : fst (MemoryCache.get (weatherKey loc u) w) = Normal None)
  (Hfail : fetchWeatherData loc (snd (MemoryCache.get (weatherKey loc u) w))
           = (Throw e, w1)) :
  fst (getCurrentTemperature loc u w) =
    match fst (MemoryCache.get (weatherKey loc u) w1) with
    | Normal (Some (VTemperature d)) =>
        Normal (Record_ {| temperature := temperature d; unit := unit d;
                           location := location d;
                           lastUpdate := lastUpdate d; connectionStatus := offline |})
    | Normal (Some (VNumber n)) =>
        if n =? 0
        then Throw (CodedObject "WEATHER_API_ERROR"
                      "Unable to retrieve weather data and no cached data available")
        else Normal (StatusOnly offline)
    | Normal None =>
        Throw (CodedObject "WEATHER_API_ERROR"
                 "Unable to retrieve weather data and no cached data available")
    | Throw e' => Throw e'
    end.
Proof.
  rewrite (run_miss _ _ _ Hvalid Hmiss). unfold tryCatch.
  rewrite run_fetchAndStore, Hfail.
  apply offlineFallback_result.
Qed.

(** C2, as the code has it: an out-of-range reading makes the try block throw,
    and the catch block treats that as it treats a failed fetch.  The call is
    the catch block run in the world the fetch left: a record found by the
    second lookup is returned with [connectionStatus = offline], otherwise
    the call throws [WEATHER_API_ERROR]; the reading is not stored, the cache
    being what the fetch left, less the key when its entry had expired. *)
Theorem implausible_reading_falls_back loc u w apiResponse w1
  (Hvalid : invalidLocation loc = false)
  (Hmiss : fst (MemoryCache.get (weatherKey loc u) w) = Normal None)
  (Hfetch : fetchWeatherData loc (snd (MemoryCache.get (weatherKey loc u) w))
            = (Normal apiResponse, w1))
  (Hout : outsidePlausibleRange (temp_c (resp_current apiResponse)) = true) :
  getCurrentTemperature loc u w = offlineFallback loc u w1
  ∧ fst (getCurrentTemperature loc u w) =
      match fst (MemoryCache.get (weatherKey loc u) w1) with
      | Normal (Some (VTemperature d)) => Normal (spreadWithStatus (VTemperature d) offline)
      | Normal (Some (VNumber n)) =>
          if n =? 0
          then Throw (CodedObject "WEATHER_API_ERROR"
                        "Unable to retrieve weather data and no cached data available")
          else Normal (StatusOnly offline)
      | Normal None =>
          Throw (CodedObject "WEATHER_API_ERROR"
                   "Unable to retrieve weather data and no cached data available")
      | Throw e' => Throw e'
      end
  ∧ store (snd (getCurrentTemperature loc u w))
    = snd (specGet (clock w1 0%nat) (weatherKey loc u) (store w1)).
Proof.
  assert (Hrun : getCurrentTemperature loc u w = offlineFallback loc u w1).
  { rewrite (run_miss _ _ _ Hvalid Hmiss). unfold tryCatch.
    rewrite run_fetchAndStore, Hfetch. simpl. rewrite Hout. reflexivity. }
  rewrite Hrun. split; [reflexivity|]. split.
  - apply offlineFallback_result.
  - rewrite offlineFallback_world. apply get_store.
Qed.

End CacheMiss.

(** What [fetchWeatherData] gives, by what [fetch] gives: every failure, be
    it a rejection (network, abort by the timer), a status that is not ok or
    a body that is not JSON, leaves as [{ code: 'WEATHER_API_ERROR', message }]. *)
Lemma run_fetchWeatherData config fetch loc w :
  let url := weather_apiUrl config +:+ "/current.json?key=" +:+ weather_apiKey config
             +:+ "&q=" +:+ encodeURIComponent loc in
  let failure message :=
    Throw (CodedObject "WEATHER_API_ERROR"
             (if String.eqb message "" then "Failed to fetch weather data" else message)) in
  fetchWeatherData config fetch loc w =
    match fetch url {| store := store w; clock := clock w; requests := url :: requests w |} with
    | (Normal response, w1) =>
        if ok response
        then match json response with
             | Normal apiResponse => (Normal apiResponse, w1)
             | Throw e => (failure (messageOf e), w1)
             end
        else (failure ("Weather API returned status " +:+ Number_toString (status response)), w1)
    | (Throw e, w1) => (failure (messageOf e), w1)
    end.
Proof.
  unfold fetchWeatherData. eff.
  destruct (fetch _ _) as [[response|e] w1]; [|reflexivity].
  destruct (ok response); simpl; [|reflexivity].
  destruct (json response); reflexivity.
Qed.

Lemma fetchWeatherData_failure_code config fetch loc w e w1 :
  fetchWeatherData config fetch loc w = (Throw e, w1) →
  codeOf e = Some "WEATHER_API_ERROR".
Proof.
  rewrite run_fetchWeatherData. simpl.
  destruct (fetch _ _) as [[response|e'] w']; [|intros [= <- _]; reflexivity].
  destruct (ok response); [|intros [= <- _]; reflexivity].
  destruct (json response); [discriminate|intros [= <- _]; reflexivity].
Qed.


(** ** The try block: range check, conversion, rounding, storing *)

Section TryBlock.

Variable config : Config.
Variable localOffset : Z -> Z.
Variable fetch : string -> Eff Response.

#[local] Abbreviation fetchAndStore := (fetchAndStore config localOffset fetch).
#[local] Abbreviation fetchWeatherData := (fetchWeatherData config fetch).

Implicit Types (loc : string) (u : TemperatureUnit) (w : World).

(** An accepted reading is converted, rounded, stored and returned. *)
Lemma fetchAndStore_accepted loc u w apiResponse w1
  (Hfetch : fetchWeatherData loc w = (Normal apiResponse, w1))
  (Hin : outsidePlausibleRange (temp_c (resp_current apiResponse)) = false) :
  ∃ d, fst (fetchAndStore loc u w) = Normal (Record_ d)
       ∧ temperature d
         = parseFloat (toFixed1 (toRequestedUnit u (temp_c (resp_current apiResponse))))
       ∧ connectionStatus d = online
       ∧ store (snd (fetchAndStore loc u w)) !! weatherKey loc u
         = Some {| data := VTemperature d;
                   expiresAt := clock w1 1%nat + cache_ttl config * 1000 |}.
Proof.
  rewrite run_fetchAndStore, Hfetch. simpl. rewrite Hin. simpl.
  eexists. split; [reflexivity|]. simpl. repeat split.
  unfold specSet. apply lookup_insert_eq.
Qed.

(** C4: the range check throws [Temperature value outside plausible range]
    exactly when the reading [c] has [c < -90] or [c > 60], leaving the world
    as the fetch left it; any other reading goes on to be converted, rounded
    and stored.  -90 and 60 are accepted, -90.1 and 60.1 rejected. *)
Theorem plausibility_check_boundaries loc u w apiResponse w1
  (Hfetch : fetchWeatherData loc w = (Normal apiResponse, w1)) :
  let c := temp_c (resp_current apiResponse) in
  (fst (fetchAndStore loc u w)
   = Throw (ErrorObject "Temperature value outside plausible range")
   ↔ (c <? -90)%float = true ∨ (60 <? c)%float = true)
  ∧ (if outsidePlausibleRange c
     then fetchAndStore loc u w
          = (Throw (ErrorObject "Temperature value outside plausible range"), w1)
     else ∃ d, fst (fetchAndStore loc u w) = Normal (Record_ d)
               ∧ temperature d = parseFloat (toFixed1 (toRequestedUnit u c))
               ∧ store (snd (fetchAndStore loc u w)) !! weatherKey loc u
                 = Some {| data := VTemperature d;
                           expiresAt := clock w1 1%nat + cache_ttl config * 1000 |})
  ∧ outsidePlausibleRange (-90) = false ∧ outsidePlausibleRange 60 = false
  ∧ outsidePlausibleRange (-90.1) = true ∧ outsidePlausibleRange 60.1 = true.
Proof.
  intros c.
  assert (Hor : outsidePlausibleRange c = true
                ↔ (c <? -90)%float = true ∨ (60 <? c)%float = true).
  { unfold outsidePlausibleRange. rewrite orb_true_iff. reflexivity. }
  split; [|split; [|repeat split]].
  - rewrite <- Hor. rewrite run_fetchAndStore, Hfetch. simpl. fold c.
    destruct (outsidePlausibleRange c); simpl; split; congruence.
  - destruct (outsidePlausibleRange c) eqn:Hc.
    + rewrite run_fetchAndStore, Hfetch. simpl. fold c. rewrite Hc. reflexivity.
    + destruct (fetchAndStore_accepted loc u w apiResponse w1 Hfetch Hc)
        as (d & Hd & Ht & _ & Hs).
      exists d. repeat split; assumption.
Qed.


End TryBlock.

(** The witness of C3: the cache is empty, the request is aborted, and a
    concurrent call has stored Lisbon by the time of the second lookup. *)
Lemma offline_fallback_on_fetch_failure_witness :
  fst (getCurrentTemperature (demoConfig 900) utc isoDateParse
         (abortedWhileStored (weatherKey "Lisbon" celsius) lisbonEntry)
         "Lisbon" celsius quietWorld)
  = Normal (Record_ {| temperature := 21.5; unit := "°C"; location := "Lisbon";
                       lastUpdate := "Updated at 22:13"; connectionStatus := offline |}).
Proof.
  exact (offline_fallback_on_fetch_failure (demoConfig 900) utc isoDateParse
           (abortedWhileStored (weatherKey "Lisbon" celsius) lisbonEntry)
           "Lisbon" celsius quietWorld
           (CodedObject "WEATHER_API_ERROR" "This operation was aborted")
           (snd (fetchWeatherData (demoConfig 900)
                   (abortedWhileStored (weatherKey "Lisbon" celsius) lisbonEntry)
                   "Lisbon" quietWorld))
           eq_refl eq_refl eq_refl).
Defined.

(** With nothing cached and the request aborted, the call throws. *)
Example no_fallback_failure :
  fst (getCurrentTemperature (demoConfig 900) utc isoDateParse aborted
         "Lisbon" celsius quietWorld)
  = Throw (CodedObject "WEATHER_API_ERROR"
             "Unable to retrieve weather data and no cached data available").
Proof. vm_compute. reflexivity. Qed.

(** C2 as stated fails: with nothing cached, a reading of -91 ends the call
    with [WEATHER_API_ERROR], the error of an unavailable provider, and not
    with the range error; and when a concurrent call has stored the key by
    the time of the second lookup, the call does not fail at all. *)
Lemma implausible_reading_reported_as_api_error :
  outsidePlausibleRange (-91) = true
  ∧ fst (MemoryCache.get (weatherKey "Lisbon" celsius) quietWorld) = Normal None
  ∧ fst (getCurrentTemperature (demoConfig 900) utc isoDateParse (answering (-91))
           "Lisbon" celsius quietWorld)
    = Throw (CodedObject "WEATHER_API_ERROR"
               "Unable to retrieve weather data and no cached data available")
  ∧ fst (getCurrentTemperature (demoConfig 900) utc isoDateParse (answering (-91))
           "Lisbon" celsius quietWorld)
    ≠ Throw (ErrorObject "Temperature value outside plausible range")
  ∧ fst (getCurrentTemperature (demoConfig 900) utc isoDateParse
           (answeringWhileStored (-91) (weatherKey "Lisbon" celsius) lisbonEntry)
           "Lisbon" celsius quietWorld)
    = Normal (Record_ {| temperature := 21.5; unit := "°C"; location := "Lisbon";
                         lastUpdate := "Updated at 22:13";
                         connectionStatus := offline |}).
Proof.
  split; [reflexivity|]. split; [reflexivity|].
  split; [vm_compute; reflexivity|].
  split; [vm_compute; discriminate|vm_compute; reflexivity].
Qed.

(** The witness of C2 as amended: nothing cached, a reading of -91. *)
Lemma implausible_reading_falls_back_witness :
  getCurrentTemperature (demoConfig 900) utc isoDateParse (answering (-91))
    "Lisbon" celsius quietWorld
  = offlineFallback "Lisbon" celsius
      (snd (fetchWeatherData (demoConfig 900) (answering (-91)) "Lisbon" quietWorld))
  ∧ fst (getCurrentTemperature (demoConfig 900) utc isoDateParse (answering (-91))
           "Lisbon" celsius quietWorld)
    = Throw (CodedObject "WEATHER_API_ERROR"
               "Unable to retrieve weather data and no cached data available")
  ∧ store (snd (getCurrentTemperature (demoConfig 900) utc isoDateParse (answering (-91))
                  "Lisbon" celsius quietWorld))
    = snd (specGet nov14 (weatherKey "Lisbon" celsius) ∅).
Proof.
  exact (implausible_reading_falls_back (demoConfig 900) utc isoDateParse (answering (-91))
           "Lisbon" celsius quietWorld (lisbon (-91))
           (snd (fetchWeatherData (demoConfig 900) (answering (-91)) "Lisbon" quietWorld))
           eq_refl eq_refl eq_refl eq_refl).
Defined.

(** The witness of C4: a reading of exactly -90 is stored and returned. *)
Lemma plausibility_check_boundaries_witness :
  ∃ d, fst (fetchAndStore (demoConfig 900) utc (answering (-90)) "Lisbon" celsius quietWorld)
       = Normal (Record_ d)
       ∧ temperature d = parseFloat (toFixed1 (toRequestedUnit celsius (-90)))
       ∧ store (snd (fetchAndStore (demoConfig 900) utc (answering (-90))
                       "Lisbon" celsius quietWorld)) !! weatherKey "Lisbon" celsius
         = Some {| data := VTemperature d; expiresAt := nov14 + 900 * 1000 |}.
Proof.
  exact (proj1 (proj2
           (plausibility_check_boundaries (demoConfig 900) utc (answering (-90))
              "Lisbon" celsius quietWorld (lisbon (-90))
              (snd (fetchWeatherData (demoConfig 900) (answering (-90)) "Lisbon" quietWorld))
              eq_refl))).
Defined.


(** ** Refreshing *)

Section Refresh.

Variable config : Config.
Variable localOffset : Z -> Z.
Variable Date_parse : string -> option Z.
Variable fetch : string -> Eff Response.

#[local] Abbreviation getCurrentTemperature :=
  (getCurrentTemperature config localOffset Date_parse fetch).
#[local] Abbreviation refreshTemperature :=
  (refreshTemperature config localOffset Date_parse fetch).

Implicit Types (loc : string) (u : TemperatureUnit) (w : World).

Lemma refreshKey_not_weatherKey loc loc' u :
  refreshKey loc ≠ weatherKey loc' u.
Proof. discriminate. Qed.

(** [refreshTemperature] is [getCurrentTemperature] run after its two
    writes. *)
Lemma run_refreshTemperature loc u w :
  refreshTemperature loc u w =
    getCurrentTemperature loc u
      {| store := <[refreshKey loc :=
                      {| data := VNumber (clock w 0%nat);
                         expiresAt := clock w 1%nat + 30 * 1000 |}]>
                    (delete (weatherKey loc u) (store w));
         clock := fun i => clock w (2 + i)%nat;
         requests := requests w |}.
Proof. reflexivity. Qed.

(** C6: [refreshTemperature] deletes the entry of (location, unit), then
    stores under the refresh key the reading of the clock with
    [expiresAt] 30 s after the next reading, and only then runs
    [getCurrentTemperature], in the world so written; it does so in every
    world, eligible or not, and whatever the retrieval then gives. *)
Theorem refreshTemperature_writes_then_delegates loc u w :
  let written :=
    {| store := <[refreshKey loc :=
                    {| data := VNumber (clock w 0%nat);
                       expiresAt := clock w 1%nat + 30 * 1000 |}]>
                  (delete (weatherKey loc u) (store w));
       clock := fun i => clock w (2 + i)%nat;
       requests := requests w |} in
  refreshTemperature loc u w = getCurrentTemperature loc u written
  ∧ written = snd ((MemoryCache.del (weatherKey loc u) ;;;
                    now <- Date_now ;;
                    MemoryCache.set (refreshKey loc) (VNumber now) 30)%eff w)
  ∧ store written !! weatherKey loc u = None
  ∧ store written !! refreshKey loc
    = Some {| data := VNumber (clock w 0%nat); expiresAt := clock w 1%nat + 30 * 1000 |}.
Proof.
  intros written. split; [apply run_refreshTemperature|]. split; [reflexivity|]. split.
  - subst written. simpl.
    rewrite lookup_insert_ne by apply refreshKey_not_weatherKey.
    apply lookup_delete_eq.
  - subst written. simpl. apply lookup_insert_eq.
Qed.

End Refresh.

(** What [checkRefreshEligibility] answers, by what the cache holds under the
    refresh key at the first reading of the clock. *)
Lemma run_checkRefreshEligibility loc w :
  fst (checkRefreshEligibility loc w) =
    Normal match fst (specGet (clock w 0%nat) (refreshKey loc) (store w)) with
           | None => true
           | Some (VNumber t) => if t =? 0 then true else clock w 1%nat - t >=? 30000
           | Some (VTemperature _) => false
           end.
Proof.
  unfold checkRefreshEligibility, MemoryCache.get, specGet.
  unfold bind at 1.
  destruct (store w !! refreshKey loc) as [entry|]; [|reflexivity].
  eff. rewrite gtb_leb.
  destruct (clock w 0%nat <=? expiresAt entry); simpl; [|reflexivity].
  destruct (data entry) as [d|t]; simpl; [reflexivity|].
  destruct (t =? 0); reflexivity.
Qed.

(** With no entry the refresh is allowed; with an entry holding a timestamp
    other than zero it is allowed exactly when the clock, read after the
    lookup, is at least 30000 ms past the timestamp. *)
Lemma checkRefreshEligibility_nonzero_timestamp loc w :
  (fst (specGet (clock w 0%nat) (refreshKey loc) (store w)) = None →
   fst (checkRefreshEligibility loc w) = Normal true)
  ∧ (∀ t, t ≠ 0 →
       fst (specGet (clock w 0%nat) (refreshKey loc) (store w)) = Some (VNumber t) →
       (fst (checkRefreshEligibility loc w) = Normal true
        ↔ clock w 1%nat - t >= 30000)).
Proof.
  rewrite run_checkRefreshEligibility. split.
  - intros ->. reflexivity.
  - intros t Ht ->. apply Z.eqb_neq in Ht. rewrite Ht.
    destruct (Z.geb_spec (clock w 1%nat - t) 30000); split;
      intros; (reflexivity || lia || discriminate).
Qed.

(** C5 (the code departs from it): a refresh made while the clock reads 0
    stores the timestamp 0, which [!lastRefresh] takes for no entry, so the
    check made right after it allows another refresh; made at any other
    reading, here [nov14], the same check refuses. *)
Theorem refresh_at_epoch_not_rate_limited :
  let refresh w := snd (refreshTemperature (demoConfig 900) utc isoDateParse (answering 20)
                          "Lisbon" celsius w) in
  store (refresh epochWorld) !! refreshKey "Lisbon"
  = Some {| data := VNumber 0; expiresAt := 30000 |}
  ∧ clock (refresh epochWorld) 1%nat - 0 = 0
  ∧ fst (checkRefreshEligibility "Lisbon" (refresh epochWorld)) = Normal true
  ∧ fst (checkRefreshEligibility "Lisbon" (refresh quietWorld)) = Normal false.
Proof. vm_compute. repeat split. Qed.

(** ** What the cache holds *)

Create HintDb online discriminated.

Lemma onlineOnly_empty : onlineOnly ∅.
Proof. intros key entry d Hk. rewrite lookup_empty in Hk. discriminate. Qed.

Lemma onlineOnly_delete key s : onlineOnly s → onlineOnly (delete key s).
Proof.
  intros Hs k entry d Hk. apply lookup_delete_Some in Hk as [_ Hk]. exact (Hs _ _ _ Hk).
Qed.

Lemma onlineOnly_insert key entry s :
  onlineOnly s →
  (∀ d, data entry = VTemperature d → connectionStatus d = online) →
  onlineOnly (<[key := entry]> s).
Proof.
  intros Hs He k entry' d Hk.
  apply lookup_insert_Some in Hk as [[_ <-]|[_ Hk]]; [apply He|exact (Hs _ _ _ Hk)].
Qed.

Lemma onlineOnly_filter (P : string * CacheEntry → Prop) `{!∀ kv, Decision (P kv)} s :
  onlineOnly s → onlineOnly (filter P s).
Proof.
  intros Hs k entry d Hk. apply map_lookup_filter_Some in Hk as [Hk _].
  exact (Hs _ _ _ Hk).
Qed.

#[local] Hint Resolve onlineOnly_empty onlineOnly_delete onlineOnly_insert
  onlineOnly_filter : online.

Section OnlineOnly.

Variable config : Config.
Variable localOffset : Z -> Z.
Variable Date_parse : string -> option Z.
Variable fetch : string -> Eff Response.
Hypothesis fetch_keeps : keepsOnlineOnly fetch.

#[local] Abbreviation getCurrentTemperature :=
  (getCurrentTemperature config localOffset Date_parse fetch).
#[local] Abbreviation refreshTemperature :=
  (refreshTemperature config localOffset Date_parse fetch).
#[local] Abbreviation fetchAndStore := (fetchAndStore config localOffset fetch).
#[local] Abbreviation fetchWeatherData := (fetchWeatherData config fetch).

Implicit Types (loc : string) (u : TemperatureUnit) (w : World).

Lemma get_keeps key w :
  onlineOnly (store w) → onlineOnly (store (snd (MemoryCache.get key w))).
Proof.
  intros Hw. rewrite get_store. unfold specGet.
  destruct (store w !! key) as [entry|]; simpl;
    [destruct (clock w 0%nat <=? expiresAt entry); simpl|]; auto with online.
Qed.

Lemma set_keeps key v ttl w :
  (∀ d, v = VTemperature d → connectionStatus d = online) →
  onlineOnly (store w) → onlineOnly (store (snd (MemoryCache.set key v ttl w))).
Proof. intros Hv Hw. rewrite set_store. unfold specSet. auto with online. Qed.

Lemma cleanup_keeps w :
  onlineOnly (store w) → onlineOnly (store (snd (MemoryCache.cleanup w))).
Proof. intros Hw. unfold MemoryCache.cleanup. eff. auto with online. Qed.

Lemma fetchWeatherData_keeps loc w :
  onlineOnly (store w) → onlineOnly (store (snd (fetchWeatherData loc w))).
Proof.
  intros Hw. rewrite run_fetchWeatherData. simpl.
  match goal with |- context [fetch ?url ?w'] =>
    pose proof (fetch_keeps url w' Hw) as Hk; destruct (fetch url w') as [[response|e] w1]
  end; simpl in *; [|exact Hk].
  destruct (ok response); [destruct (json response)|]; exact Hk.
Qed.

Lemma fetchAndStore_keeps loc u w :
  onlineOnly (store w) → onlineOnly (store (snd (fetchAndStore loc u w))).
Proof.
  intros Hw. rewrite run_fetchAndStore.
  pose proof (fetchWeatherData_keeps loc w Hw) as Hk.
  destruct (fetchWeatherData loc w) as [[apiResponse|e] w1]; simpl in *; [|exact Hk].
  destruct (outsidePlausibleRange _); simpl; [exact Hk|].
  unfold specSet. apply onlineOnly_insert; [exact Hk|].
  simpl. intros d [= <-]. reflexivity.
Qed.

Lemma offlineFallback_keeps loc u w :
  onlineOnly (store w) → onlineOnly (store (snd (offlineFallback loc u w))).
Proof. intros Hw. rewrite offlineFallback_world. apply get_keeps, Hw. Qed.

Lemma getCurrentTemperature_keeps loc u w :
  onlineOnly (store w) → onlineOnly (store (snd (getCurrentTemperature loc u w))).
Proof.
  intros Hw. destruct (invalidLocation loc) eqn:Hvalid.
  - rewrite (getCurrentTemperature_invalid _ _ _ _ _ _ _ Hvalid). exact Hw.
  - rewrite (run_getCurrentTemperature _ _ _ _ _ _ _ Hvalid).
    pose proof (get_keeps (weatherKey loc u) w Hw) as Hk.
    destruct (MemoryCache.get (weatherKey loc u) w) as [[cachedData|e] w1];
      simpl in *; [|exact Hk].
    destruct (truthy cachedData); simpl; [exact Hk|].
    unfold tryCatch.
    pose proof (fetchAndStore_keeps loc u w1 Hk) as Hk'.
    destruct (fetchAndStore loc u w1) as [[reply|e] w2]; simpl in *; [exact Hk'|].
    apply offlineFallback_keeps, Hk'.
Qed.

Lemma refreshTemperature_keeps loc u w :
  onlineOnly (store w) → onlineOnly (store (snd (refreshTemperature loc u w))).
Proof.
  intros Hw.
  rewrite run_refreshTemperature.
  apply getCurrentTemperature_keeps. simpl.
  apply onlineOnly_insert; [auto with online|]. simpl. discriminate.
Qed.

Lemma checkRefreshEligibility_keeps loc w :
  onlineOnly (store w) → onlineOnly (store (snd (checkRefreshEligibility loc w))).
Proof.
  intros Hw. unfold checkRefreshEligibility. unfold bind at 1.
  pose proof (get_keeps (refreshKey loc) w Hw) as Hk.
  destruct (MemoryCache.get (refreshKey loc) w) as [[lastRefresh|e] w1];
    simpl in *; [|exact Hk].
  destruct (truthy lastRefresh); exact Hk.
Qed.

Lemma runCall_keeps c w :
  onlineOnly (store w) →
  onlineOnly (store (runCall config localOffset Date_parse fetch c w)).
Proof.
  intros Hw. destruct c as [loc u|loc u|loc|]; unfold runCall.
  - apply getCurrentTemperature_keeps, Hw.
  - apply refreshTemperature_keeps, Hw.
  - apply checkRefreshEligibility_keeps, Hw.
  - apply cleanup_keeps, Hw.
Qed.

End OnlineOnly.

Lemma runCalls_keeps config localOffset Date_parse fetch calls :
  keepsOnlineOnly fetch →
  ∀ w, onlineOnly (store w) →
       onlineOnly (store (runCalls config localOffset Date_parse fetch calls w)).
Proof.
  intros Henv. unfold runCalls.
  induction calls as [|c calls IH]; intros w Hw; simpl; [exact Hw|].
  apply IH, runCall_keeps; assumption.
Qed.

(** Calls of the service that run during a round trip keep the invariant the
    round trip is assumed to keep. *)
Lemma whileRunning_keeps config localOffset Date_parse inner others :
  keepsOnlineOnly inner →
  keepsOnlineOnly (whileRunning config localOffset Date_parse inner others).
Proof.
  intros Hinner url w Hw. unfold whileRunning. simpl.
  apply runCalls_keeps; [exact Hinner|apply Hinner, Hw].
Qed.

Lemma answering_keeps c : keepsOnlineOnly (answering c).
Proof. intros url w Hw. exact Hw. Qed.

(** C10: every [TemperatureData] in the cache is labelled online, after any
    history of calls of [getCurrentTemperature], [refreshTemperature],
    [checkRefreshEligibility] and the cleanup callback that starts from a
    cache of which this holds (the empty one, at start-up), provided what
    runs during a round trip to the provider keeps it too.  The stale and
    offline copies are returned and never stored. *)
Theorem cache_holds_online_records_only config localOffset Date_parse fetch calls w
  (Henv : keepsOnlineOnly fetch)
  (Hinit : onlineOnly (store w)) :
  onlineOnly (store (runCalls config localOffset Date_parse fetch calls w)).
Proof. apply runCalls_keeps; assumption. Qed.

(** The witness of C10: from the empty cache, a lookup of Lisbon during whose
    round trip Porto is refreshed and looked up, then a check, a refresh, a
    cleanup and a second lookup. *)
Lemma cache_holds_online_records_only_witness :
  onlineOnly
    (store (runCalls (demoConfig 900) utc isoDateParse
              (whileRunning (demoConfig 900) utc isoDateParse (answering 20)
                 [CallRefresh "Porto" fahrenheit; CallGet "Porto" fahrenheit])
              [CallGet "Lisbon" celsius; CallCheck "Lisbon"; CallRefresh "Lisbon" celsius;
               CallCleanup; CallGet "Lisbon" celsius]
              quietWorld)).
Proof.
  exact (cache_holds_online_records_only (demoConfig 900) utc isoDateParse
           (whileRunning (demoConfig 900) utc isoDateParse (answering 20)
              [CallRefresh "Porto" fahrenheit; CallGet "Porto" fahrenheit])
           [CallGet "Lisbon" celsius; CallCheck "Lisbon"; CallRefresh "Lisbon" celsius;
            CallCleanup; CallGet "Lisbon" celsius]
           quietWorld
           (whileRunning_keeps (demoConfig 900) utc isoDateParse (answering 20)
              [CallRefresh "Porto" fahrenheit; CallGet "Porto" fahrenheit]
              (answering_keeps 20))
           onlineOnly_empty).
Defined.

(** * Further properties of the cache *)

(** X1: a lookup that follows a [set] of the same key returns the value set
    when the clock, read by the lookup, is at most [ttl * 1000] past the
    reading the [set] took, and otherwise finds nothing and leaves the key
    without any entry, what it held before the [set] included. *)
Theorem set_then_get key v ttl w :
  let stored := snd (MemoryCache.set key v ttl w) in
  fst (MemoryCache.get key stored)
  = Normal (if clock w 1%nat <=? clock w 0%nat + ttl * 1000 then Some v else None)
  ∧ store (snd (MemoryCache.get key stored))
    = (if clock w 1%nat <=? clock w 0%nat + ttl * 1000
       then <[key := {| data := v; expiresAt := clock w 0%nat + ttl * 1000 |}]> (store w)
       else delete key (store w)).
Proof.
  intros stored. subst stored. rewrite get_result, get_store.
  unfold specGet, MemoryCache.set. eff. rewrite lookup_insert_eq. simpl.
  destruct (clock w 1%nat <=? clock w 0%nat + ttl * 1000); simpl;
    split; try reflexivity.
  apply delete_insert_eq.
Qed.

(** X2: after [del(key)] a lookup of the key finds nothing, without reading
    the clock or changing the world; no other key is touched; and deleting a
    key that has no entry changes nothing.  After [clear()] every lookup
    finds nothing. *)
Theorem del_clear_then_get key w :
  MemoryCache.get key (snd (MemoryCache.del key w)) = (Normal None, snd (MemoryCache.del key w))
  ∧ (∀ key', key' ≠ key → store (snd (MemoryCache.del key w)) !! key' = store w !! key')
  ∧ match store w !! key with
    | None => snd (MemoryCache.del key w) = w
    | Some _ => store (snd (MemoryCache.del key w)) ≠ store w
    end
  ∧ MemoryCache.get key (snd (MemoryCache.clear w)) = (Normal None, snd (MemoryCache.clear w)).
Proof.
  split; [|split; [|split]].
  - unfold MemoryCache.get, MemoryCache.del. eff. rewrite lookup_delete_eq. reflexivity.
  - intros key' Hne. unfold MemoryCache.del. eff. apply lookup_delete_ne. congruence.
  - unfold MemoryCache.del. eff. destruct (store w !! key) as [entry|] eqn:E.
    + intros Heq. rewrite <- Heq, lookup_delete_eq in E. discriminate.
    + rewrite (delete_id _ _ E). destruct w; reflexivity.
  - unfold MemoryCache.get, MemoryCache.clear. eff. rewrite lookup_empty. reflexivity.
Qed.

(** What the cleanup keeps: the entries that have not expired at its reading
    of the clock. *)
Lemma cleanup_lookup key w :
  store (snd (MemoryCache.cleanup w)) !! key
  = match store w !! key with
    | Some entry => if clock w 0%nat <=? expiresAt entry then Some entry else None
    | None => None
    end.
Proof.
  unfold MemoryCache.cleanup. eff. rewrite map_lookup_filter.
  destruct (store w !! key) as [entry|]; simpl; [|reflexivity].
  destruct (Z.leb_spec (clock w 0%nat) (expiresAt entry)).
  - rewrite option_guard_True by lia. reflexivity.
  - rewrite option_guard_False by lia. reflexivity.
Qed.

(** X3: the cleanup removes exactly the entries that have expired at its
    reading of the clock, and, the clock not running backwards, the lookup
    that follows gives what it would have given had the cleanup only read
    the clock: [get] does not depend on the cleanup having run. *)
Theorem cleanup_invisible_to_get key w
  (Hclock : clock w 0%nat <= clock w 1%nat) :
  store (snd (MemoryCache.cleanup w)) !! key
  = match store w !! key with
    | Some entry => if clock w 0%nat <=? expiresAt entry then Some entry else None
    | None => None
    end
  ∧ fst (MemoryCache.get key (snd (MemoryCache.cleanup w)))
    = fst (MemoryCache.get key (afterReadings 1 w)).
Proof.
  split; [apply cleanup_lookup|].
  rewrite !get_result. unfold specGet. rewrite cleanup_lookup.
  replace (clock (snd (MemoryCache.cleanup w)) 0%nat) with (clock w 1%nat) by reflexivity.
  simpl. destruct (store w !! key) as [entry|]; [|reflexivity].
  destruct (Z.leb_spec (clock w 0%nat) (expiresAt entry));
    [destruct (clock w 1%nat <=? expiresAt entry); reflexivity|].
  replace (clock w 1%nat <=? expiresAt entry) with false
    by (symmetry; apply Z.leb_gt; lia).
  reflexivity.
Qed.

(** The witness of X3: Lisbon's entry has expired by the time of the cleanup. *)
Lemma cleanup_invisible_to_get_witness :
  store (snd (MemoryCache.cleanup (cachedWorld (nov14 - 1) nov14)))
    !! weatherKey "Lisbon" celsius = None
  ∧ fst (MemoryCache.get (weatherKey "Lisbon" celsius)
           (snd (MemoryCache.cleanup (cachedWorld (nov14 - 1) nov14))))
    = fst (MemoryCache.get (weatherKey "Lisbon" celsius)
             (afterReadings 1 (cachedWorld (nov14 - 1) nov14))).
Proof.
  exact (cleanup_invisible_to_get (weatherKey "Lisbon" celsius)
           (cachedWorld (nov14 - 1) nov14) ltac:(simpl; lia)).
Defined.

(** * Further properties of the service *)

(** ** Cache keys *)

Lemma append_list (s1 s2 : string) :
  list_ascii_of_string (s1 +:+ s2) = list_ascii_of_string s1 ++ list_ascii_of_string s2.
Proof. induction s1 as [|c s1 IH]; simpl; [reflexivity|]. rewrite IH. reflexivity. Qed.

Lemma list_ascii_of_string_inj (s1 s2 : string) :
  list_ascii_of_string s1 = list_ascii_of_string s2 → s1 = s2.
Proof.
  intros H. rewrite <- (string_of_list_ascii_of_string s1),
    <- (string_of_list_ascii_of_string s2), H. reflexivity.
Qed.

Lemma append_assoc (s1 s2 s3 : string) : (s1 +:+ s2) +:+ s3 = s1 +:+ s2 +:+ s3.
Proof.
  apply list_ascii_of_string_inj. rewrite !append_list. symmetry. apply app_assoc.
Qed.

(** Two texts that end in tails of the same length are equal only when the
    tails are. *)
Lemma append_inj_tail (s1 s2 t1 t2 : string) :
  String.length t1 = String.length t2 →
  s1 +:+ t1 = s2 +:+ t2 → s1 = s2 ∧ t1 = t2.
Proof.
  intros Hlen Heq. apply (f_equal list_ascii_of_string) in Heq.
  rewrite !append_list in Heq.
  apply app_inj_2 in Heq as [H1 H2].
  - split; apply list_ascii_of_string_inj; assumption.
  - clear Heq. revert t2 Hlen.
    induction t1 as [|c t1 IH]; intros [|c' t2]; simpl; intros Hlen;
      try discriminate; [reflexivity|].
    f_equal. apply IH. congruence.
Qed.

(** X4: the cache keys do not collide: two calls share a weather key only
    when they agree on the location and on the unit, however many colons the
    locations hold; a refresh key is shared only by equal locations; and no
    refresh key is a weather key. *)
Theorem cache_keys_do_not_collide :
  (∀ loc u loc' u', weatherKey loc u = weatherKey loc' u' → loc = loc' ∧ u = u')
  ∧ (∀ loc loc', refreshKey loc = refreshKey loc' → loc = loc')
  ∧ (∀ loc loc' u, refreshKey loc ≠ weatherKey loc' u).
Proof.
  split; [|split].
  - intros loc u loc' u' Heq. unfold weatherKey in Heq. simpl in Heq.
    injection Heq as Heq.
    destruct u, u'; simpl in Heq.
    + apply (append_inj_tail loc loc' ":celsius" ":celsius" eq_refl) in Heq as [-> _].
      split; reflexivity.
    + assert (Heq' : loc +:+ ":celsius" = (loc' +:+ ":fa") +:+ "hrenheit")
        by (rewrite append_assoc; exact Heq).
      apply (append_inj_tail loc (loc' +:+ ":fa") ":celsius" "hrenheit" eq_refl)
        in Heq' as [_ Habs].
      discriminate.
    + assert (Heq' : (loc +:+ ":fa") +:+ "hrenheit" = loc' +:+ ":celsius")
        by (rewrite append_assoc; exact Heq).
      apply (append_inj_tail (loc +:+ ":fa") loc' "hrenheit" ":celsius" eq_refl)
        in Heq' as [_ Habs].
      discriminate.
    + apply (append_inj_tail loc loc' ":fahrenheit" ":fahrenheit" eq_refl) in Heq as [-> _].
      split; reflexivity.
  - intros loc loc' Heq. unfold refreshKey in Heq. simpl in Heq.
    injection Heq as Heq. exact Heq.
  - intros loc loc' u. discriminate.
Qed.

(** ** Errors, frame and composition *)

(** A lookup never throws. *)
Lemma get_normal key w : ∃ o, fst (MemoryCache.get key w) = Normal o.
Proof. rewrite get_result. eexists. reflexivity. Qed.

(** After a lookup that found nothing the key has no entry. *)
Lemma get_miss_absent key w :
  fst (MemoryCache.get key w) = Normal None →
  store (snd (MemoryCache.get key w)) !! key = None.
Proof.
  rewrite get_result, get_store. unfold specGet.
  destruct (store w !! key) as [entry|] eqn:E; simpl.
  - destruct (clock w 0%nat <=? expiresAt entry); simpl; [discriminate|].
    intros _. apply lookup_delete_eq.
  - intros _. apply lookup_delete_eq.
Qed.

Section ServiceExtras.

Variable config : Config.
Variable localOffset : Z -> Z.
Variable Date_parse : string -> option Z.
Variable fetch : string -> Eff Response.

#[local] Abbreviation getCurrentTemperature :=
  (getCurrentTemperature config localOffset Date_parse fetch).
#[local] Abbreviation refreshTemperature :=
  (refreshTemperature config localOffset Date_parse fetch).
#[local] Abbreviation fetchAndStore := (fetchAndStore config localOffset fetch).
#[local] Abbreviation fetchWeatherData := (fetchWeatherData config fetch).

Implicit Types (loc : string) (u : TemperatureUnit) (w : World).

(** What the catch block throws. *)
Lemma thrown_by_offlineFallback loc u w e :
  fst (offlineFallback loc u w) = Throw e →
  e = CodedObject "WEATHER_API_ERROR"
        "Unable to retrieve weather data and no cached data available".
Proof.
  rewrite offlineFallback_result.
  destruct (get_normal (weatherKey loc u) w) as [o ->].
  destruct o as [[d|n]|]; [discriminate| |intros [= <-]; reflexivity].
  destruct (n =? 0); [intros [= <-]; reflexivity|discriminate].
Qed.

(** What [getCurrentTemperature] throws. *)
Lemma thrown_by_getCurrentTemperature loc u w e :
  fst (getCurrentTemperature loc u w) = Throw e →
  invalidLocation loc = true
  ∧ e = ErrorObject "Location must be between 1 and 50 characters"
  ∨ invalidLocation loc = false
    ∧ e = CodedObject "WEATHER_API_ERROR"
            "Unable to retrieve weather data and no cached data available".
Proof.
  destruct (invalidLocation loc) eqn:Hvalid.
  - rewrite (getCurrentTemperature_invalid _ _ _ _ _ _ _ Hvalid).
    intros [= <-]. left. split; reflexivity.
  - rewrite (run_getCurrentTemperature _ _ _ _ _ _ _ Hvalid).
    destruct (get_normal (weatherKey loc u) w) as [o Ho].
    destruct (MemoryCache.get (weatherKey loc u) w) as [[cachedData|e'] w1];
      simpl in Ho; [|discriminate].
    destruct (truthy cachedData); [discriminate|].
    unfold tryCatch.
    destruct (fetchAndStore loc u w1) as [[reply|e'] w2]; [discriminate|].
    intros Hthrow. right. split; [reflexivity|].
    exact (thrown_by_offlineFallback _ _ _ _ Hthrow).
Qed.

(** X5: [getCurrentTemperature] throws one of two values: the validation
    error, when the location is empty or longer than 50, or
    [WEATHER_API_ERROR] with the message that no cached data is available.
    The range error and the message of a failed fetch never leave it; the
    same holds of [refreshTemperature]. *)
Theorem service_throws_two_errors loc u w e
  (Hthrow : fst (getCurrentTemperature loc u w) = Throw e
            ∨ fst (refreshTemperature loc u w) = Throw e) :
  invalidLocation loc = true
  ∧ e = ErrorObject "Location must be between 1 and 50 characters"
  ∨ invalidLocation loc = false
    ∧ e = CodedObject "WEATHER_API_ERROR"
            "Unable to retrieve weather data and no cached data available".
Proof.
  destruct Hthrow as [Hthrow|Hthrow].
  - exact (thrown_by_getCurrentTemperature _ _ _ _ Hthrow).
  - rewrite run_refreshTemperature in Hthrow.
    exact (thrown_by_getCurrentTemperature _ _ _ _ Hthrow).
Qed.


(** A fetch that leaves a key alone makes [fetchWeatherData] leave it alone. *)
Lemma fetchWeatherData_frame key loc w
  (Hquiet : ∀ url w', store (snd (fetch url w')) !! key = store w' !! key) :
  store (snd (fetchWeatherData loc w)) !! key = store w !! key.
Proof.
  rewrite run_fetchWeatherData. simpl.
  match goal with |- context [fetch ?url ?w'] =>
    pose proof (Hquiet url w') as Hk; destruct (fetch url w') as [[response|e] w1]
  end; simpl in *; [|exact Hk].
  destruct (ok response); [destruct (json response)|]; exact Hk.
Qed.

Lemma getCurrentTemperature_frame key loc u w
  (Hother : key ≠ weatherKey loc u)
  (Hquiet : ∀ url w', store (snd (fetch url w')) !! key = store w' !! key) :
  store (snd (getCurrentTemperature loc u w)) !! key = store w !! key.
Proof.
  destruct (invalidLocation loc) eqn:Hvalid.
  - rewrite (getCurrentTemperature_invalid _ _ _ _ _ _ _ Hvalid). reflexivity.
  - rewrite (run_getCurrentTemperature _ _ _ _ _ _ _ Hvalid).
    pose proof (get_frame (weatherKey loc u) key w Hother) as Hget.
    destruct (MemoryCache.get (weatherKey loc u) w) as [[cachedData|e] w1];
      simpl in Hget; [|exact Hget].
    destruct (truthy cachedData); [exact Hget|].
    rewrite <- Hget. unfold tryCatch. rewrite run_fetchAndStore.
    pose proof (fetchWeatherData_frame key loc w1 Hquiet) as Hfetch.
    destruct (fetchWeatherData loc w1) as [[apiResponse|e] w2]; simpl in Hfetch.
    + simpl. destruct (outsidePlausibleRange _); simpl.
      * rewrite offlineFallback_world, get_frame by exact Hother. exact Hfetch.
      * unfold specSet. rewrite lookup_insert_ne by congruence. exact Hfetch.
    + rewrite offlineFallback_world, get_frame by exact Hother. exact Hfetch.
Qed.

(** X7: a call of [getCurrentTemperature] for (location, unit) changes the
    entry of no other key, a refresh guard or another location's record,
    beyond what is done to that key by whatever runs during the round trip
    to the provider. *)
Theorem lookup_touches_own_key_only key loc u w
  (Hother : key ≠ weatherKey loc u)
  (Hquiet : ∀ url w', store (snd (fetch url w')) !! key = store w' !! key) :
  store (snd (getCurrentTemperature loc u w)) !! key = store w !! key.
Proof. exact (getCurrentTemperature_frame key loc u w Hother Hquiet). Qed.

End ServiceExtras.

Section Composition.

Variable config : Config.
Variable localOffset : Z -> Z.
Variable Date_parse : string -> option Z.
Variable fetch : string -> Eff Response.

#[local] Abbreviation getCurrentTemperature :=
  (getCurrentTemperature config localOffset Date_parse fetch).
#[local] Abbreviation refreshTemperature :=
  (refreshTemperature config localOffset Date_parse fetch).
#[local] Abbreviation fetchAndStore := (fetchAndStore config localOffset fetch).
#[local] Abbreviation fetchWeatherData := (fetchWeatherData config fetch).

Implicit Types (loc : string) (u : TemperatureUnit) (w : World).

(** A hit, whole: the reply, and the world two readings of the clock later. *)
Lemma run_hit loc u w entry d
  (Hvalid : invalidLocation loc = false)
  (Hentry : store w !! weatherKey loc u = Some entry)
  (Hdata : data entry = VTemperature d)
  (Hfresh : clock w 0%nat <= expiresAt entry) :
  getCurrentTemperature loc u w
  = (Normal (spreadWithStatus (VTemperature d)
               (if isStale (clock w 1%nat) (Date_parse (lastUpdate d))
                then stale else online)),
     afterReadings 2 w).
Proof.
  rewrite (run_getCurrentTemperature _ _ _ _ _ _ _ Hvalid).
  unfold MemoryCache.get. rewrite Hentry. eff. rewrite gtb_leb.
  replace (clock w 0%nat <=? expiresAt entry) with true
    by (symmetry; apply Z.leb_le; exact Hfresh).
  simpl. rewrite Hdata. reflexivity.
Qed.

(** X8: a record fetched on a miss is what the next call for the same
    (location, unit) returns, as long as that call finds the clock at most
    the configured TTL past the reading the store took: the copy has the
    fetched temperature, unit, location and lastUpdate, no request is made
    for it, and the cache is left as the fetch wrote it. *)
Theorem fetched_record_served_from_cache loc u w apiResponse w1
  (Hvalid : invalidLocation loc = false)
  (Hmiss : fst (MemoryCache.get (weatherKey loc u) w) = Normal None)
  (Hfetch : fetchWeatherData loc (snd (MemoryCache.get (weatherKey loc u) w))
            = (Normal apiResponse, w1))
  (Hin : outsidePlausibleRange (temp_c (resp_current apiResponse)) = false)
  (Hfresh : clock w1 2%nat <= clock w1 1%nat + cache_ttl config * 1000) :
  let first := getCurrentTemperature loc u w in
  let second := getCurrentTemperature loc u (snd first) in
  ∃ d d', fst first = Normal (Record_ d)
          ∧ fst second = Normal (Record_ d')
          ∧ temperature d' = temperature d ∧ unit d' = unit d
          ∧ location d' = location d ∧ lastUpdate d' = lastUpdate d
          ∧ requests (snd second) = requests (snd first)
          ∧ store (snd second) = store (snd first).
Proof.
  intros first second. subst second first.
  rewrite (run_miss _ _ _ _ _ _ _ Hvalid Hmiss). unfold tryCatch.
  rewrite run_fetchAndStore, Hfetch. simpl. rewrite Hin. simpl.
  eexists. eexists. split; [reflexivity|].
  erewrite run_hit;
    [|exact Hvalid|apply lookup_insert_eq|reflexivity|exact Hfresh].
  simpl. repeat split.
Qed.

(** X9: after [refreshTemperature] has stored a timestamp [t] other than 0,
    and with nothing else writing the refresh key during the round trip,
    [checkRefreshEligibility] for the location answers true exactly when the
    clock, read after its lookup, is at least 30000 ms past [t]; the clock is
    taken not to run backwards between two consecutive readings of one call. *)
Theorem refresh_then_check loc u w
  (Hquiet : ∀ url w', store (snd (fetch url w')) !! refreshKey loc
                      = store w' !! refreshKey loc)
  (Hstamp : clock w 0%nat ≠ 0)
  (Hset : clock w 0%nat <= clock w 1%nat)
  (Hcheck : clock (snd (refreshTemperature loc u w)) 0%nat
            <= clock (snd (refreshTemperature loc u w)) 1%nat) :
  let refreshed := snd (refreshTemperature loc u w) in
  store refreshed !! refreshKey loc
  = Some {| data := VNumber (clock w 0%nat); expiresAt := clock w 1%nat + 30 * 1000 |}
  ∧ (fst (checkRefreshEligibility loc refreshed) = Normal true
     ↔ clock refreshed 1%nat - clock w 0%nat >= 30000).
Proof.
  intros refreshed.
  assert (Hguard : store refreshed !! refreshKey loc
                   = Some {| data := VNumber (clock w 0%nat);
                             expiresAt := clock w 1%nat + 30 * 1000 |}).
  { subst refreshed. rewrite run_refreshTemperature.
    rewrite (getCurrentTemperature_frame config localOffset Date_parse fetch
               (refreshKey loc) loc u _ (refreshKey_not_weatherKey loc loc u) Hquiet).
    simpl. apply lookup_insert_eq. }
  split; [exact Hguard|].
  rewrite run_checkRefreshEligibility. unfold specGet. rewrite Hguard. simpl.
  fold refreshed in Hcheck.
  destruct (Z.leb_spec (clock refreshed 0%nat) (clock w 1%nat + 30 * 1000)); simpl.
  - apply Z.eqb_neq in Hstamp. rewrite Hstamp.
    destruct (Z.geb_spec (clock refreshed 1%nat - clock w 0%nat) 30000); split;
      intros; (reflexivity || lia || discriminate).
  - split; intros; [lia|reflexivity].
Qed.

(** X10: [refreshTemperature] validates nothing before it writes: with a
    location that is empty or longer than 50 it throws the validation error
    of [getCurrentTemperature] after the entry has been deleted and the
    refresh guard stored. *)
Theorem refresh_writes_before_validation loc u w
  (Hinvalid : invalidLocation loc = true) :
  fst (refreshTemperature loc u w)
  = Throw (ErrorObject "Location must be between 1 and 50 characters")
  ∧ store (snd (refreshTemperature loc u w))
    = <[refreshKey loc := {| data := VNumber (clock w 0%nat);
                             expiresAt := clock w 1%nat + 30 * 1000 |}]>
        (delete (weatherKey loc u) (store w)).
Proof.
  rewrite run_refreshTemperature.
  rewrite (getCurrentTemperature_invalid _ _ _ _ _ _ _ Hinvalid).
  split; reflexivity.
Qed.

(** X11: the catch block has nothing to fall back on unless something else
    stores the key during the round trip: when the first lookup finds
    nothing, the try block throws, be it the fetch or the range check, and
    the key is as the lookup left it, the call throws [WEATHER_API_ERROR]. *)
Theorem fallback_needs_concurrent_store loc u w e w1
  (Hvalid : invalidLocation loc = false)
  (Hmiss : fst (MemoryCache.get (weatherKey loc u) w) = Normal None)
  (Hthrow : fetchAndStore loc u (snd (MemoryCache.get (weatherKey loc u) w)) = (Throw e, w1))
  (Hquiet : store w1 !! weatherKey loc u
            = store (snd (MemoryCache.get (weatherKey loc u) w)) !! weatherKey loc u) :
  fst (getCurrentTemperature loc u w)
  = Throw (CodedObject "WEATHER_API_ERROR"
             "Unable to retrieve weather data and no cached data available").
Proof.
  rewrite (run_miss _ _ _ _ _ _ _ Hvalid Hmiss). unfold tryCatch. rewrite Hthrow.
  rewrite offlineFallback_result, get_result. unfold specGet.
  rewrite Hquiet, (get_miss_absent _ _ Hmiss). reflexivity.
Qed.

End Composition.

(** The witness of X5: nothing cached, the request aborted. *)
Lemma service_throws_two_errors_witness :
  invalidLocation "Lisbon" = true
  ∧ CodedObject "WEATHER_API_ERROR"
      "Unable to retrieve weather data and no cached data available"
    = ErrorObject "Location must be between 1 and 50 characters"
  ∨ invalidLocation "Lisbon" = false
    ∧ CodedObject "WEATHER_API_ERROR"
        "Unable to retrieve weather data and no cached data available"
      = CodedObject "WEATHER_API_ERROR"
          "Unable to retrieve weather data and no cached data available".
Proof.
  exact (service_throws_two_errors (demoConfig 900) utc isoDateParse aborted
           "Lisbon" celsius quietWorld
           (CodedObject "WEATHER_API_ERROR"
              "Unable to retrieve weather data and no cached data available")
           (or_introl eq_refl)).
Defined.


(** The witness of X7: a lookup of Lisbon leaves Lisbon's refresh guard. *)
Lemma lookup_touches_own_key_only_witness :
  store (snd (getCurrentTemperature (demoConfig 900) utc isoDateParse (answering 20)
                "Lisbon" celsius guardedWorld)) !! refreshKey "Lisbon"
  = store guardedWorld !! refreshKey "Lisbon".
Proof.
  exact (lookup_touches_own_key_only (demoConfig 900) utc isoDateParse (answering 20)
           (refreshKey "Lisbon") "Lisbon" celsius guardedWorld
           (refreshKey_not_weatherKey "Lisbon" "Lisbon" celsius)
           (fun _ _ => eq_refl)).
Defined.

(** The witness of X8: Lisbon fetched and looked up again at once. *)
Lemma fetched_record_served_from_cache_witness :
  let first := getCurrentTemperature (demoConfig 900) utc isoDateParse (answering 20)
                 "Lisbon" celsius quietWorld in
  let second := getCurrentTemperature (demoConfig 900) utc isoDateParse (answering 20)
                  "Lisbon" celsius (snd first) in
  ∃ d d', fst first = Normal (Record_ d)
          ∧ fst second = Normal (Record_ d')
          ∧ temperature d' = temperature d ∧ unit d' = unit d
          ∧ location d' = location d ∧ lastUpdate d' = lastUpdate d
          ∧ requests (snd second) = requests (snd first)
          ∧ store (snd second) = store (snd first).
Proof.
  exact (fetched_record_served_from_cache (demoConfig 900) utc isoDateParse (answering 20)
           "Lisbon" celsius quietWorld (lisbon 20)
           (snd (fetchWeatherData (demoConfig 900) (answering 20) "Lisbon" quietWorld))
           eq_refl eq_refl eq_refl eq_refl ltac:(vm_compute; discriminate)).
Defined.

(** The witness of X9: Lisbon refreshed at [nov14], the check made at once. *)
Lemma refresh_then_check_witness :
  let refreshed := snd (refreshTemperature (demoConfig 900) utc isoDateParse (answering 20)
                          "Lisbon" celsius quietWorld) in
  store refreshed !! refreshKey "Lisbon"
  = Some {| data := VNumber nov14; expiresAt := nov14 + 30 * 1000 |}
  ∧ (fst (checkRefreshEligibility "Lisbon" refreshed) = Normal true
     ↔ clock refreshed 1%nat - nov14 >= 30000).
Proof.
  exact (refresh_then_check (demoConfig 900) utc isoDateParse (answering 20)
           "Lisbon" celsius quietWorld (fun _ _ => eq_refl)
           ltac:(vm_compute; discriminate) ltac:(vm_compute; discriminate)
           ltac:(vm_compute; discriminate)).
Defined.

(** The witness of X10: a refresh of the empty location. *)
Lemma refresh_writes_before_validation_witness :
  fst (refreshTemperature (demoConfig 900) utc isoDateParse (answering 20)
         "" celsius quietWorld)
  = Throw (ErrorObject "Location must be between 1 and 50 characters")
  ∧ store (snd (refreshTemperature (demoConfig 900) utc isoDateParse (answering 20)
                  "" celsius quietWorld))
    = <[refreshKey "" := {| data := VNumber nov14; expiresAt := nov14 + 30 * 1000 |}]>
        (delete (weatherKey "" celsius) ∅).
Proof.
  exact (refresh_writes_before_validation (demoConfig 900) utc isoDateParse (answering 20)
           "" celsius quietWorld eq_refl).
Defined.

(** The witness of X11: nothing cached, the request aborted, nothing else
    running. *)
Lemma fallback_needs_concurrent_store_witness :
  fst (getCurrentTemperature (demoConfig 900) utc isoDateParse aborted
         "Lisbon" celsius quietWorld)
  = Throw (CodedObject "WEATHER_API_ERROR"
             "Unable to retrieve weather data and no cached data available").
Proof.
  exact (fallback_needs_concurrent_store (demoConfig 900) utc isoDateParse aborted
           "Lisbon" celsius quietWorld
           (CodedObject "WEATHER_API_ERROR" "This operation was aborted")
           (snd (fetchAndStore (demoConfig 900) utc aborted "Lisbon" celsius quietWorld))
           eq_refl eq_refl eq_refl eq_refl).
Defined.

(** ** The timestamp *)

(** Below 100, a number padded to two places is two digits that read back as
    the number. *)
Lemma two_digits (n : Z) :
  0 <= n < 100 →
  String.length (padStart 2 "0" (Number_toString n)) = 2%nat
  ∧ readDigits 2 0 (padStart 2 "0" (Number_toString n)) = Some (n, "").
Proof.
  intros Hn.
  assert (Hk : ∃ k, n = Z.of_nat k ∧ (k < 100)%nat)
    by (exists (Z.to_nat n); lia).
  destruct Hk as (k & -> & Hk). clear Hn.
  do 100 (destruct k as [|k]; [vm_compute; split; reflexivity|]). lia.
Qed.

(** X12: [formatTimestamp] writes [Updated at HH:MM], sixteen characters,
    where [HH] and [MM] are two digits each that read back as the local hour,
    between 0 and 23, and the local minute, between 0 and 59, of the date. *)
Theorem formatTimestamp_shape localOffset date :
  ∃ hh mm,
    formatTimestamp localOffset date = "Updated at " +:+ hh +:+ ":" +:+ mm
    ∧ String.length hh = 2%nat ∧ String.length mm = 2%nat
    ∧ readDigits 2 0 hh = Some (getHours localOffset date, "")
    ∧ readDigits 2 0 mm = Some (getMinutes localOffset date, "")
    ∧ 0 <= getHours localOffset date < 24
    ∧ 0 <= getMinutes localOffset date < 60.
Proof.
  assert (Hh : 0 <= getHours localOffset date < 24)
    by (unfold getHours; apply Z.mod_pos_bound; lia).
  assert (Hm : 0 <= getMinutes localOffset date < 60)
    by (unfold getMinutes; apply Z.mod_pos_bound; lia).
  destruct (two_digits (getHours localOffset date)) as [Hlh Hrh]; [lia|].
  destruct (two_digits (getMinutes localOffset date)) as [Hlm Hrm]; [lia|].
  eexists. eexists. split; [reflexivity|].
  repeat split; try assumption; lia.
Qed.

(** * The handlers *)

(** What the schema lets through, the service accepts. *)
Lemma schemaParse_valid input loc u :
  schemaParse input = Some (loc, u) → invalidLocation loc = false.
Proof.
  destruct input as [|location unit]; [discriminate|].
  destruct location as [|s|]; try discriminate.
  unfold schemaParse, zLocation.
  destruct ((1 <=? String.length s)%nat && (String.length s <=? 50)%nat) eqn:Hlen;
    [|discriminate].
  destruct (zUnit unit); [|discriminate]. intros [= <- _].
  apply andb_true_iff in Hlen as [Hmin Hmax].
  apply Nat.leb_le in Hmin, Hmax.
  unfold invalidLocation. apply orb_false_iff. split.
  - apply String.eqb_neq. intros ->. simpl in Hmin. lia.
  - apply Nat.ltb_ge. exact Hmax.
Qed.

(** [checkRefreshEligibility] never throws, and when it refuses it has
    changed nothing in the cache and asked nothing of the provider. *)
Lemma checkRefreshEligibility_normal loc w :
  ∃ canRefresh, fst (checkRefreshEligibility loc w) = Normal canRefresh.
Proof. rewrite run_checkRefreshEligibility. eexists. reflexivity. Qed.

Lemma checkRefreshEligibility_refusal loc w :
  fst (checkRefreshEligibility loc w) = Normal false →
  store (snd (checkRefreshEligibility loc w)) = store w
  ∧ requests (snd (checkRefreshEligibility loc w)) = requests w.
Proof.
  pose proof (get_result (refreshKey loc) w) as Hres.
  pose proof (get_store (refreshKey loc) w) as Hstore.
  pose proof (get_requests (refreshKey loc) w) as Hreq.
  unfold checkRefreshEligibility. eff.
  destruct (MemoryCache.get (refreshKey loc) w) as [[lastRefresh|e] w1];
    simpl in *; [|discriminate].
  destruct (truthy lastRefresh) as [v|] eqn:Htruthy; simpl; [|discriminate].
  intros _. split; [|exact Hreq].
  rewrite Hstore. unfold specGet in *.
  destruct (store w !! refreshKey loc) as [entry|]; simpl in *.
  - destruct (clock w 0%nat <=? expiresAt entry); simpl in *; [reflexivity|].
    injection Hres as ->. discriminate.
  - injection Hres as ->. discriminate.
Qed.

Section HandlerFacts.

Variable config : Config.
Variable localOffset : Z -> Z.
Variable Date_parse : string -> option Z.
Variable fetch : string -> Eff Response.
Variable Issues : Type.
Variable zodIssues : RawInput -> Issues.

#[local] Abbreviation currentHandler :=
  (weatherController.getCurrentTemperature config localOffset Date_parse fetch
     Issues zodIssues).
#[local] Abbreviation refreshHandler :=
  (weatherController.refreshTemperature config localOffset Date_parse fetch
     Issues zodIssues).
#[local] Abbreviation getCurrentTemperature :=
  (getCurrentTemperature config localOffset Date_parse fetch).
#[local] Abbreviation refreshTemperature :=
  (refreshTemperature config localOffset Date_parse fetch).
#[local] Abbreviation unavailable :=
  (@Sent Issues HTTP_STATUS.SERVICE_UNAVAILABLE
     (errorResponse "SERVICE_UNAVAILABLE"
        "Unable to retrieve weather data and no cached data available" None)).
#[local] Abbreviation rateLimited :=
  (@Sent Issues HTTP_STATUS.BAD_REQUEST
     (errorResponse "RATE_LIMIT_ERROR"
        "Please wait at least 30 seconds between manual refresh requests" None)).

(** How both handlers answer a throw of the service once the schema has let
    the location through. *)
Lemma serviceFailure_unavailable input loc u w e :
  schemaParse input = Some (loc, u) →
  fst (getCurrentTemperature loc u w) = Throw e →
  weatherController.serviceFailure Issues e = unavailable.
Proof.
  intros Hparse Hthrow.
  destruct (thrown_by_getCurrentTemperature _ _ _ _ _ _ _ _ Hthrow) as [[H _]|[_ ->]].
  - rewrite (schemaParse_valid _ _ _ Hparse) in H. discriminate.
  - reflexivity.
Qed.

(** X13: the handler of [GET /weather/current] always answers, and never
    hands an error to [next]: 400 with [VALIDATION_ERROR] when the schema
    refuses the query, without touching the service; otherwise 200 with the
    service's reply, or 503 with [SERVICE_UNAVAILABLE] and the message that
    no cached data is available when the service throws.  A location the
    schema lets through is never refused by the service. *)
Theorem current_handler_always_answers query w :
  currentHandler query w =
    match schemaParse query with
    | None => (Normal (weatherController.invalidRequest Issues zodIssues query), w)
    | Some (loc, u) =>
        (Normal match fst (getCurrentTemperature loc u w) with
                | Normal temperatureData =>
                    Sent HTTP_STATUS.OK (successResponse (TemperatureResponse temperatureData))
                | Throw _ => unavailable
                end,
         snd (getCurrentTemperature loc u w))
    end
  ∧ ∃ status body, fst (currentHandler query w) = Normal (Sent status body)
                   ∧ (status = 200 ∨ status = 400 ∨ status = 503).
Proof.
  assert (Hrun : currentHandler query w =
    match schemaParse query with
    | None => (Normal (weatherController.invalidRequest Issues zodIssues query), w)
    | Some (loc, u) =>
        (Normal match fst (getCurrentTemperature loc u w) with
                | Normal temperatureData =>
                    Sent HTTP_STATUS.OK (successResponse (TemperatureResponse temperatureData))
                | Throw _ => unavailable
                end,
         snd (getCurrentTemperature loc u w))
    end).
  { unfold weatherController.getCurrentTemperature.
    destruct (schemaParse query) as [[loc u]|] eqn:Hparse; [|reflexivity].
    unfold tryCatch, bind, ret.
    pose proof (serviceFailure_unavailable query loc u w) as Hfail.
    destruct (getCurrentTemperature loc u w) as [[reply|e] w1]; simpl in *;
      [reflexivity|].
    rewrite (Hfail e Hparse eq_refl). reflexivity. }
  split; [exact Hrun|]. rewrite Hrun.
  destruct (schemaParse query) as [[loc u]|]; simpl.
  - destruct (fst (getCurrentTemperature loc u w)); eexists; eexists;
      (split; [reflexivity|]); [left|right; right]; reflexivity.
  - eexists. eexists. split; [reflexivity|]. right. left. reflexivity.
Qed.

(** X14: the handler of [POST /weather/refresh] always answers, and never
    hands an error to [next]: 400 with [VALIDATION_ERROR] when the schema
    refuses the body; 400 with [RATE_LIMIT_ERROR] when
    [checkRefreshEligibility] says no; otherwise [refreshTemperature] is run
    in the world the check left, and the answer is 200 with the four fields
    of its reply, or 503 with [SERVICE_UNAVAILABLE] when it throws. *)
Theorem refresh_handler_always_answers body w :
  fst (refreshHandler body w) =
    Normal match schemaParse body with
           | None => weatherController.invalidRequest Issues zodIssues body
           | Some (loc, u) =>
               match fst (checkRefreshEligibility loc w) with
               | Normal true =>
                   match fst (refreshTemperature loc u (snd (checkRefreshEligibility loc w))) with
                   | Normal temperatureData =>
                       Sent HTTP_STATUS.OK
                         (successResponse
                            (RefreshResponse (weatherController.refreshedFields temperatureData)))
                   | Throw _ => unavailable
                   end
               | _ => rateLimited
               end
           end.
Proof.
  unfold weatherController.refreshTemperature.
  destruct (schemaParse body) as [[loc u]|] eqn:Hparse; [|reflexivity].
  unfold tryCatch. unfold bind at 1.
  destruct (checkRefreshEligibility_normal loc w) as [canRefresh Hcheck].
  destruct (checkRefreshEligibility loc w) as [[canRefresh'|e] w1]; simpl in *;
    [|discriminate].
  injection Hcheck as ->. destruct canRefresh; simpl; [|reflexivity].
  unfold bind, ret.
  pose proof (serviceFailure_unavailable body loc u) as Hfail.
  rewrite run_refreshTemperature.
  match goal with |- context [getCurrentTemperature loc u ?w'] =>
    specialize (Hfail w'); destruct (getCurrentTemperature loc u w') as [[reply|e] w2]
  end; simpl in *; [reflexivity|].
  rewrite (Hfail e Hparse eq_refl). reflexivity.
Qed.

(** X15: a refresh that is refused for the rate limit does nothing else: the
    cached record is not deleted, the refresh guard keeps its timestamp and
    its expiry, so refused attempts do not prolong the wait, and nothing is
    asked of the provider. *)
Theorem refused_refresh_changes_nothing body loc u w
  (Hparse : schemaParse body = Some (loc, u))
  (Hrefused : fst (checkRefreshEligibility loc w) = Normal false) :
  fst (refreshHandler body w) = Normal rateLimited
  ∧ store (snd (refreshHandler body w)) = store w
  ∧ requests (snd (refreshHandler body w)) = requests w.
Proof.
  destruct (checkRefreshEligibility_refusal loc w Hrefused) as [Hstore Hreq].
  unfold weatherController.refreshTemperature. rewrite Hparse.
  unfold tryCatch. unfold bind at 1 3 5.
  destruct (checkRefreshEligibility loc w) as [[canRefresh|e] w1]; simpl in *;
    [|discriminate].
  injection Hrefused as ->. simpl. repeat split; assumption.
Qed.

End HandlerFacts.

(** The witness of X15: Lisbon was refreshed ten seconds ago. *)
Lemma refused_refresh_changes_nothing_witness :
  fst (weatherController.refreshTemperature (demoConfig 900) utc isoDateParse (answering 20)
         (list string) refusedProperties (Fields (Text "Lisbon") Undefined) guardedWorld)
  = Normal (Sent 400
              (errorResponse "RATE_LIMIT_ERROR"
                 "Please wait at least 30 seconds between manual refresh requests" None))
  ∧ store (snd (weatherController.refreshTemperature (demoConfig 900) utc isoDateParse
                  (answering 20) (list string) refusedProperties
                  (Fields (Text "Lisbon") Undefined) guardedWorld))
    = store guardedWorld
  ∧ requests (snd (weatherController.refreshTemperature (demoConfig 900) utc isoDateParse
                     (answering 20) (list string) refusedProperties
                     (Fields (Text "Lisbon") Undefined) guardedWorld))
    = requests guardedWorld.
Proof.
  exact (refused_refresh_changes_nothing (demoConfig 900) utc isoDateParse (answering 20)
           (list string) refusedProperties (Fields (Text "Lisbon") Undefined)
           "Lisbon" celsius guardedWorld eq_refl eq_refl).
Defined.

(** ** When a hit is stale *)

(** X16: a hit is labelled stale exactly when [Date.parse] makes a time of
    the record's [lastUpdate] and the clock, read after the lookup, is more
    than 3600000 ms past that time; in every other case it is labelled
    online. *)
Theorem hit_stale_iff config localOffset Date_parse fetch loc u w d
  (Hvalid : invalidLocation loc = false)
  (Hhit : fst (MemoryCache.get (weatherKey loc u) w) = Normal (Some (VTemperature d))) :
  ∃ d', fst (getCurrentTemperature config localOffset Date_parse fetch loc u w)
        = Normal (Record_ d')
        ∧ (connectionStatus d' = stale
           ↔ ∃ fetched, Date_parse (lastUpdate d) = Some fetched
                        ∧ clock w 1%nat - fetched > 3600000)
        ∧ (connectionStatus d' = stale ∨ connectionStatus d' = online).
Proof.
  rewrite (cache_hit_status config localOffset Date_parse fetch loc u w d Hvalid Hhit).
  simpl. eexists. split; [reflexivity|]. simpl.
  destruct (Date_parse (lastUpdate d)) as [fetched|].
  - destruct (Z.gtb_spec (clock w 1%nat - fetched) 3600000); split.
    + split; [intros _; exists fetched; split; [reflexivity|lia]|reflexivity].
    + left. reflexivity.
    + split; [discriminate|intros (f & [= <-] & Hgt); lia].
    + right. reflexivity.
  - split; [|right; reflexivity].
    split; [discriminate|intros (f & Hf & _); discriminate].
Qed.

(** The witness of X16: a record whose [lastUpdate] is a full date-time of
    two hours ago. *)
Lemma hit_stale_iff_witness :
  let d := {| temperature := 21.5; unit := "°C"; location := "Lisbon";
              lastUpdate := "2023-11-14T20:13:20.000Z"; connectionStatus := online |} in
  let w := {| store := {[ weatherKey "Lisbon" celsius :=
                            {| data := VTemperature d; expiresAt := nov14 + 1 |} ]};
              clock := fun _ => nov14; requests := [] |} in
  ∃ d', fst (getCurrentTemperature (demoConfig 900) utc isoDateParse aborted
               "Lisbon" celsius w) = Normal (Record_ d')
        ∧ (connectionStatus d' = stale
           ↔ ∃ fetched, isoDateParse (lastUpdate d) = Some fetched
                        ∧ clock w 1%nat - fetched > 3600000)
        ∧ (connectionStatus d' = stale ∨ connectionStatus d' = online).
Proof.
  exact (hit_stale_iff (demoConfig 900) utc isoDateParse aborted "Lisbon" celsius
           {| store := {[ weatherKey "Lisbon" celsius :=
                            {| data := VTemperature
                                         {| temperature := 21.5; unit := "°C";
                                            location := "Lisbon";
                                            lastUpdate := "2023-11-14T20:13:20.000Z";
                                            connectionStatus := online |};
                               expiresAt := nov14 + 1 |} ]};
              clock := fun _ => nov14; requests := [] |}
           {| temperature := 21.5; unit := "°C"; location := "Lisbon";
              lastUpdate := "2023-11-14T20:13:20.000Z"; connectionStatus := online |}
           eq_refl eq_refl).
Defined.

(** ** Invariants of the entries *)

Lemma truthy_Some o v : truthy o = Some v → o = Some v.
Proof.
  destruct o as [[d|n]|]; simpl; [intros [= <-]; reflexivity| |discriminate].
  destruct (n =? 0); [discriminate|intros [= <-]; reflexivity].
Qed.

Section EntryInvariant.

(** A property that holds of what the service writes: an online record
    under a weather key, a number under a refresh key. *)
Variable P : string -> CacheEntry -> Prop.
Hypothesis P_record : ∀ loc u d expires,
  connectionStatus d = online →
  P (weatherKey loc u) {| data := VTemperature d; expiresAt := expires |}.
Hypothesis P_guard : ∀ loc n expires,
  P (refreshKey loc) {| data := VNumber n; expiresAt := expires |}.

Variable config : Config.
Variable localOffset : Z -> Z.
Variable Date_parse : string -> option Z.
Variable fetch : string -> Eff Response.
Hypothesis fetch_keeps :
  ∀ url w, allEntries P (store w) → allEntries P (store (snd (fetch url w))).

#[local] Abbreviation getCurrentTemperature :=
  (getCurrentTemperature config localOffset Date_parse fetch).
#[local] Abbreviation refreshTemperature :=
  (refreshTemperature config localOffset Date_parse fetch).
#[local] Abbreviation fetchAndStore := (fetchAndStore config localOffset fetch).
#[local] Abbreviation fetchWeatherData := (fetchWeatherData config fetch).

Implicit Types (loc : string) (u : TemperatureUnit) (w : World).

Lemma allEntries_delete key s : allEntries P s → allEntries P (delete key s).
Proof.
  intros Hs k entry Hk. apply lookup_delete_Some in Hk as [_ Hk]. exact (Hs _ _ Hk).
Qed.

Lemma allEntries_insert key entry s :
  allEntries P s → P key entry → allEntries P (<[key := entry]> s).
Proof.
  intros Hs He k entry' Hk.
  apply lookup_insert_Some in Hk as [[<- <-]|[_ Hk]]; [exact He|exact (Hs _ _ Hk)].
Qed.

Lemma get_keeps_entries key w :
  allEntries P (store w) → allEntries P (store (snd (MemoryCache.get key w))).
Proof.
  intros Hw. rewrite get_store. unfold specGet.
  destruct (store w !! key) as [entry|]; simpl;
    [destruct (clock w 0%nat <=? expiresAt entry); simpl|];
    try exact Hw; apply allEntries_delete, Hw.
Qed.

Lemma fetchWeatherData_keeps_entries loc w :
  allEntries P (store w) → allEntries P (store (snd (fetchWeatherData loc w))).
Proof.
  intros Hw. rewrite run_fetchWeatherData. simpl.
  match goal with |- context [fetch ?url ?w'] =>
    pose proof (fetch_keeps url w' Hw) as Hk; destruct (fetch url w') as [[response|e] w1]
  end; simpl in *; [|exact Hk].
  destruct (ok response); [destruct (json response)|]; exact Hk.
Qed.

Lemma fetchAndStore_keeps_entries loc u w :
  allEntries P (store w) → allEntries P (store (snd (fetchAndStore loc u w))).
Proof.
  intros Hw. rewrite run_fetchAndStore.
  pose proof (fetchWeatherData_keeps_entries loc w Hw) as Hk.
  destruct (fetchWeatherData loc w) as [[apiResponse|e] w1]; simpl in *; [|exact Hk].
  destruct (outsidePlausibleRange _); simpl; [exact Hk|].
  unfold specSet. apply allEntries_insert; [exact Hk|].
  apply P_record. reflexivity.
Qed.

Lemma getCurrentTemperature_keeps_entries loc u w :
  allEntries P (store w) → allEntries P (store (snd (getCurrentTemperature loc u w))).
Proof.
  intros Hw. destruct (invalidLocation loc) eqn:Hvalid.
  - rewrite (getCurrentTemperature_invalid _ _ _ _ _ _ _ Hvalid). exact Hw.
  - rewrite (run_getCurrentTemperature _ _ _ _ _ _ _ Hvalid).
    pose proof (get_keeps_entries (weatherKey loc u) w Hw) as Hk.
    destruct (MemoryCache.get (weatherKey loc u) w) as [[cachedData|e] w1];
      simpl in *; [|exact Hk].
    destruct (truthy cachedData); simpl; [exact Hk|].
    unfold tryCatch.
    pose proof (fetchAndStore_keeps_entries loc u w1 Hk) as Hk'.
    destruct (fetchAndStore loc u w1) as [[reply|e] w2]; simpl in *; [exact Hk'|].
    rewrite offlineFallback_world. apply get_keeps_entries, Hk'.
Qed.

Lemma runCall_keeps_entries c w :
  allEntries P (store w) →
  allEntries P (store (runCall config localOffset Date_parse fetch c w)).
Proof.
  intros Hw. destruct c as [loc u|loc u|loc|]; unfold runCall.
  - apply getCurrentTemperature_keeps_entries, Hw.
  - rewrite run_refreshTemperature. apply getCurrentTemperature_keeps_entries. simpl.
    apply allEntries_insert; [apply allEntries_delete, Hw|apply P_guard].
  - unfold checkRefreshEligibility. unfold bind at 1.
    pose proof (get_keeps_entries (refreshKey loc) w Hw) as Hk.
    destruct (MemoryCache.get (refreshKey loc) w) as [[lastRefresh|e] w1];
      simpl in *; [|exact Hk].
    destruct (truthy lastRefresh); exact Hk.
  - unfold MemoryCache.cleanup. eff. intros k entry Hk.
    apply map_lookup_filter_Some in Hk as [Hk _]. exact (Hw _ _ Hk).
Qed.

Lemma runCalls_keeps_entries calls :
  ∀ w, allEntries P (store w) →
       allEntries P (store (runCalls config localOffset Date_parse fetch calls w)).
Proof.
  unfold runCalls. induction calls as [|c calls IH]; intros w Hw; simpl; [exact Hw|].
  apply IH, runCall_keeps_entries, Hw.
Qed.

End EntryInvariant.

Lemma castsHold_record loc u d expires :
  castsHold (weatherKey loc u) {| data := VTemperature d; expiresAt := expires |}.
Proof.
  split.
  - intros _ _ _. exists d. reflexivity.
  - intros loc' Hkey. symmetry in Hkey.
    destruct (refreshKey_not_weatherKey loc' loc u Hkey).
Qed.

Lemma castsHold_guard loc n expires :
  castsHold (refreshKey loc) {| data := VNumber n; expiresAt := expires |}.
Proof.
  split.
  - intros loc' u Hkey. destruct (refreshKey_not_weatherKey loc loc' u Hkey).
  - intros _ _. exists n. reflexivity.
Qed.

(** With the casts holding, what a lookup of a weather key returns is a
    record. *)
Lemma weather_lookup_typed loc u w v :
  allEntries castsHold (store w) →
  fst (MemoryCache.get (weatherKey loc u) w) = Normal (Some v) →
  ∃ d, v = VTemperature d.
Proof.
  intros Hw Hget. destruct (get_hit _ _ _ Hget) as (_ & entry & Hentry & <- & _).
  destruct (Hw _ _ Hentry) as [Hrecord _]. exact (Hrecord loc u eq_refl).
Qed.

(** X17: the casts of the service are sound.  From a cache in which every
    weather key holds a [TemperatureData] and every refresh key a number, as
    in the empty one, and with whatever runs during a round trip keeping it
    so, this still holds after any history of calls and cleanups; every
    reply of [getCurrentTemperature] then is a full record, and what
    [checkRefreshEligibility] reads under its key is a number. *)
Theorem casts_are_sound config localOffset Date_parse fetch calls w
  (Henv : ∀ url w', allEntries castsHold (store w') →
                    allEntries castsHold (store (snd (fetch url w'))))
  (Hinit : allEntries castsHold (store w)) :
  let now := runCalls config localOffset Date_parse fetch calls w in
  allEntries castsHold (store now)
  ∧ (∀ loc u reply,
       fst (getCurrentTemperature config localOffset Date_parse fetch loc u now)
       = Normal reply → ∃ d, reply = Record_ d)
  ∧ (∀ loc v,
       fst (MemoryCache.get (refreshKey loc) now) = Normal (Some v) → ∃ n, v = VNumber n).
Proof.
  intros now.
  assert (Hnow : allEntries castsHold (store now)).
  { apply runCalls_keeps_entries; auto using castsHold_record, castsHold_guard. }
  split; [exact Hnow|]. split.
  - intros loc u reply. destruct (invalidLocation loc) eqn:Hvalid.
    { rewrite (getCurrentTemperature_invalid _ _ _ _ _ _ _ Hvalid). discriminate. }
    rewrite (run_getCurrentTemperature _ _ _ _ _ _ _ Hvalid).
    pose proof (weather_lookup_typed loc u now) as Htyped.
    pose proof (get_keeps_entries castsHold (weatherKey loc u) now Hnow) as Hk.
    destruct (MemoryCache.get (weatherKey loc u) now) as [[cachedData|e] w1];
      simpl in *; [|discriminate].
    destruct (truthy cachedData) as [v|] eqn:Htruthy.
    + apply truthy_Some in Htruthy as ->.
      destruct (Htyped v Hnow eq_refl) as [d ->]. simpl.
      intros [= <-]. eexists. reflexivity.
    + unfold tryCatch.
      pose proof (fetchAndStore_keeps_entries castsHold
                    (fun loc u d e _ => castsHold_record loc u d e)
                    config localOffset fetch Henv loc u w1 Hk) as Hk'.
      rewrite run_fetchAndStore in *.
      destruct (fetchWeatherData config fetch loc w1) as [[apiResponse|e] w2];
        simpl in *.
      * destruct (outsidePlausibleRange _); simpl in *;
          [|intros [= <-]; eexists; reflexivity].
        rewrite run_offlineFallback.
        pose proof (weather_lookup_typed loc u w2) as Htyped2.
        destruct (MemoryCache.get (weatherKey loc u) w2) as [[offlineData|e] w3];
          simpl in *; [|discriminate].
        destruct (truthy offlineData) as [v|] eqn:Htruthy2; [|discriminate].
        apply truthy_Some in Htruthy2 as ->.
        destruct (Htyped2 v Hk' eq_refl) as [d ->]. simpl.
        intros [= <-]. eexists. reflexivity.
      * rewrite run_offlineFallback.
        pose proof (weather_lookup_typed loc u w2) as Htyped2.
        destruct (MemoryCache.get (weatherKey loc u) w2) as [[offlineData|e'] w3];
          simpl in *; [|discriminate].
        destruct (truthy offlineData) as [v|] eqn:Htruthy2; [|discriminate].
        apply truthy_Some in Htruthy2 as ->.
        destruct (Htyped2 v Hk' eq_refl) as [d ->]. simpl.
        intros [= <-]. eexists. reflexivity.
  - intros loc v Hget.
    destruct (get_hit _ _ _ Hget) as (_ & entry & Hentry & <- & _).
    destruct (Hnow _ _ Hentry) as [_ Hguard]. exact (Hguard loc eq_refl).
Qed.

Lemma allEntries_empty P : allEntries P ∅.
Proof. intros key entry Hk. rewrite lookup_empty in Hk. discriminate. Qed.

(** The witness of X17: from the empty cache, Lisbon refreshed and looked up. *)
Lemma casts_are_sound_witness :
  let now := runCalls (demoConfig 900) utc isoDateParse (answering 20)
               [CallRefresh "Lisbon" celsius; CallGet "Lisbon" celsius] quietWorld in
  allEntries castsHold (store now)
  ∧ (∀ loc u reply,
       fst (getCurrentTemperature (demoConfig 900) utc isoDateParse (answering 20) loc u now)
       = Normal reply → ∃ d, reply = Record_ d)
  ∧ (∀ loc v,
       fst (MemoryCache.get (refreshKey loc) now) = Normal (Some v) → ∃ n, v = VNumber n).
Proof.
  exact (casts_are_sound (demoConfig 900) utc isoDateParse (answering 20)
           [CallRefresh "Lisbon" celsius; CallGet "Lisbon" celsius] quietWorld
           (fun _ _ H => H) (allEntries_empty castsHold)).
Defined.
